(** * Map controller of the air-quality viewer

    Shallow embedding of [src/components/Map/Map.tsx]: the React component
    [Map] that owns one Leaflet map, a list of air-quality readings fetched
    from the network and the markers drawn from them.

    The component is modelled as a state machine.  A value of type [state]
    holds the component's [useRef]/[useState] cells, the Leaflet map objects
    it has created, the notifications and network requests it has issued and
    the bookkeeping React keeps for its two [useEffect] hooks.  Every
    function of the component is a pure function on [state]; the asynchronous
    parts (awaited requests, the timer) are split at their suspension point
    into the part that issues the request and the continuation that runs
    when it settles. *)

From Stdlib Require Import ZArith Lia Ascii String PrimFloat Uint63 FloatOps SpecFloat.
From stdpp Require Import base option list strings pretty.

Set Warnings "-inexact-float,-register-all".
Open Scope string_scope.

(** ** JavaScript values

    The payloads ([response.data], the readings, the search candidates) are
    typed [any] in the source, and the code inspects them with [typeof],
    truthiness and property reads, so they are modelled as untyped values.
    Numbers are IEEE binary64, as in JavaScript. *)
Module JS.

Inductive value :=
| Undefined
| Null
| Bool (b : bool)
| Num (x : float)
| Str (s : string)
| Arr (elems : list value)
| Obj (props : list (string * value)).

(** ToBoolean: what [if (v)], [!v], [a && b] and [a || b] test. *)
Definition truthy (v : value) : bool :=
  match v with
  | Undefined | Null => false
  | Bool b => b
  | Num x => negb (PrimFloat.is_zero x || PrimFloat.is_nan x)
  | Str s => negb (String.eqb s EmptyString)
  | Arr _ | Obj _ => true
  end.

(** The [typeof] operator. *)
Definition typeof (v : value) : string :=
  match v with
  | Undefined => "undefined"
  | Null | Arr _ | Obj _ => "object"
  | Bool _ => "boolean"
  | Num _ => "number"
  | Str _ => "string"
  end.

Fixpoint assoc (k : string) (props : list (string * value)) : value :=
  match props with
  | [] => Undefined
  | (k', v) :: rest => if String.eqb k k' then v else assoc k rest
  end.

(** Property read [v.k] for the data keys the component reads ([data],
    [lat], [lon], [aqi], [station], [name], [display_name]): the property
    of an object, [undefined] on the primitive values and arrays.  Reading
    a property of [null] or [undefined] throws; the component does so only
    in [handleSelectLocation], where the throw is modelled, every other
    read being behind a truthiness test or [?.]. *)
Definition get (v : value) (k : string) : value :=
  match v with
  | Obj props => assoc k props
  | _ => Undefined
  end.

(** Optional chaining [v?.k]. *)
Definition get_opt (v : value) (k : string) : value :=
  match v with
  | Undefined | Null => Undefined
  | _ => get v k
  end.

(** [a || b]. *)
Definition or_else (a b : value) : value := if truthy a then a else b.

Section Conversions.
(** Number-to-string conversion of the JavaScript runtime. *)
Variable numberToString : float -> string.

(** ToString, as applied by template literals. *)
Fixpoint ToString (v : value) : string :=
  match v with
  | Undefined => "undefined"
  | Null => "null"
  | Bool true => "true"
  | Bool false => "false"
  | Num x => numberToString x
  | Str s => s
  | Arr elems =>
      (fix join (l : list value) : string :=
         match l with
         | [] => EmptyString
         | x :: rest =>
             let sx := match x with
                       | Undefined | Null => EmptyString
                       | _ => ToString x
                       end in
             match rest with
             | [] => sx
             | _ :: _ => sx ++ "," ++ join rest
             end
         end) elems
  | Obj _ => "[object Object]"
  end.
End Conversions.

(** Strings are held as the UTF-8 bytes of the JavaScript string.

    The white space [String.prototype.trim] removes (WhiteSpace and
    LineTerminator of the language): U+0009 to U+000D and U+0020, one byte
    each; U+00A0, two bytes; U+1680, U+2000 to U+200A, U+2028, U+2029,
    U+202F, U+205F, U+3000 and U+FEFF, three bytes each. *)
Definition space1 (b : nat) : bool :=
  (b =? 32)%nat || ((9 <=? b)%nat && (b <=? 13)%nat).

Definition space2 (b1 b2 : nat) : bool :=
  (b1 =? 194)%nat && (b2 =? 160)%nat.

Definition space3 (b1 b2 b3 : nat) : bool :=
  ((b1 =? 225)%nat && (b2 =? 154)%nat && (b3 =? 128)%nat)
  || ((b1 =? 226)%nat && (b2 =? 128)%nat
      && (((128 <=? b3)%nat && (b3 <=? 138)%nat)
          || (b3 =? 168)%nat || (b3 =? 169)%nat || (b3 =? 175)%nat))
  || ((b1 =? 226)%nat && (b2 =? 129)%nat && (b3 =? 159)%nat)
  || ((b1 =? 227)%nat && (b2 =? 128)%nat && (b3 =? 128)%nat)
  || ((b1 =? 239)%nat && (b2 =? 187)%nat && (b3 =? 191)%nat).

(** The string consists of white space only. *)
Fixpoint all_space (s : string) : bool :=
  match s with
  | EmptyString => true
  | String c1 r1 =>
      let b1 := Ascii.nat_of_ascii c1 in
      if space1 b1 then all_space r1
      else
        match r1 with
        | EmptyString => false
        | String c2 r2 =>
            let b2 := Ascii.nat_of_ascii c2 in
            if space2 b1 b2 then all_space r2
            else
              match r2 with
              | EmptyString => false
              | String c3 r3 =>
                  if space3 b1 b2 (Ascii.nat_of_ascii c3) then all_space r3
                  else false
              end
        end
  end.

(** [!s.trim()]: the string is empty once trimmed. *)
Definition blank (s : string) : bool := all_space s.

(** A string from the numbers of its bytes. *)
Definition of_bytes (bytes : list nat) : string :=
  fold_right (fun b rest => String (Ascii.ascii_of_nat b) rest) EmptyString bytes.

End JS.

(** ** The part of Leaflet the component uses

    A map object is modelled by what the component can change on it: its
    view, its layer collection, whether it carries the zoom control, how
    often its size was invalidated and whether it has been destroyed by
    [remove()].  A popup bound to a marker is part of the marker: Leaflet
    closes it when the marker is removed. *)
Module Leaflet.

Definition LatLng : Type := float * float.

Record PathOptions := {
  radius : Z;
  fillColor : string;
  color : string;
  weight : Z;
  opacity : float;
  fillOpacity : float
}.

Inductive Layer :=
| TileLayer (url : string)
| Marker (latlng : LatLng) (popup : option string) (popupOpen : bool)
| CircleMarker (latlng : LatLng) (options : PathOptions) (popup : option string).

(** [layer instanceof L.Marker] *)
Definition isMarker (l : Layer) : bool :=
  match l with Marker _ _ _ => true | _ => false end.

(** [layer instanceof L.CircleMarker] *)
Definition isCircleMarker (l : Layer) : bool :=
  match l with CircleMarker _ _ _ => true | _ => false end.

Record Map := {
  center : LatLng;
  zoom : Z;
  layers : list Layer;
  zoomControl : option string;
  invalidations : nat;
  removed : bool
}.

(** [L.map(container, {center, zoom, layers})] *)
Definition map (c : LatLng) (z : Z) (ls : list Layer) : Map :=
  {| center := c; zoom := z; layers := ls; zoomControl := None;
     invalidations := 0; removed := false |}.

(** [L.control.zoom({position}).addTo(m)] *)
Definition addZoomControl (position : string) (m : Map) : Map :=
  {| center := center m; zoom := zoom m; layers := layers m;
     zoomControl := Some position; invalidations := invalidations m;
     removed := removed m |}.

(** [m.setView(c, z)] *)
Definition setView (c : LatLng) (z : Z) (m : Map) : Map :=
  {| center := c; zoom := z; layers := layers m;
     zoomControl := zoomControl m; invalidations := invalidations m;
     removed := removed m |}.

Definition withLayers (ls : list Layer) (m : Map) : Map :=
  {| center := center m; zoom := zoom m; layers := ls;
     zoomControl := zoomControl m; invalidations := invalidations m;
     removed := removed m |}.

(** [m.eachLayer(layer => { if (p(layer)) layer.remove(); })] *)
Definition removeLayersWhere (p : Layer -> bool) (m : Map) : Map :=
  withLayers (List.filter (fun l => negb (p l)) (layers m)) m.

(** [layer.addTo(m)] *)
Definition addTo (l : Layer) (m : Map) : Map :=
  withLayers (layers m ++ [l]) m.

(** [m.invalidateSize()] *)
Definition invalidateSize (m : Map) : Map :=
  {| center := center m; zoom := zoom m; layers := layers m;
     zoomControl := zoomControl m; invalidations := S (invalidations m);
     removed := removed m |}.

(** [m.remove()]: destroys the map; its layers are detached with it. *)
Definition remove (m : Map) : Map :=
  {| center := center m; zoom := zoom m; layers := [];
     zoomControl := None; invalidations := invalidations m;
     removed := true |}.

End Leaflet.

(** ** The component's state *)

(** Notifications ([toast.error], [toast.warning] of sonner). *)
Inductive level := ErrorToast | WarningToast.
Definition toast : Type := level * string.

(** The two [axios.get] calls: the Nominatim search with its query, and the
    WAQI map-bounds call with [latlng=south,west,north,east] and the token. *)
Inductive request :=
| NominatimSearch (q : string)
| WaqiBounds (south west north east : float) (token : string).

(** An async function suspended at its [await]. *)
Inductive pending :=
| AwaitSearch          (* handleSearch *)
| AwaitInitialAQI      (* fetchAQIData, inside the first effect *)
| AwaitLocationAQI.    (* fetchAQIDataForLocation *)

(** How an awaited request settles: the promise is rejected, or resolved
    with a response whose [data] is the given value. *)
Inductive outcome :=
| Rejected
| Resolved (data : JS.value).

(** What constructing the Leaflet map inside the [try] block can do. *)
Inductive construction :=
| Constructed          (* no exception *)
| MapThrows            (* [L.map] / [L.tileLayer] throws: nothing assigned *)
| ZoomControlThrows.   (* [map.current] assigned, then the control throws *)

(** Dependency array of the first effect: [showMap, iqairToken,
    mapInitialized]. *)
Definition deps : Type := bool * string * bool.

Record state := {
  (* useRef: [map.current] is null or one of the map objects in [maps] *)
  map_current : option nat;
  (* every Leaflet map object created so far, by creation order *)
  maps : list Leaflet.Map;
  (* useState *)
  aqiData : JS.value;
  aqiVersion : nat;
  iqairToken : string;
  showMap : bool;
  searchResults : JS.value;
  selectedLocation : option Leaflet.LatLng;
  mapInitialized : bool;
  (* the outside world *)
  toasts : list toast;
  network : list request;
  inflight : list pending;
  timers : nat;
  localStorage : option string;
  (* React's bookkeeping for the two effects *)
  mounted : bool;
  initEffectDeps : option deps;
  initEffectCleanup : bool;
  aqiEffectDeps : option nat
}.

Definition set_map_current (v : option nat) (s : state) : state :=
  {| map_current := v; maps := maps s; aqiData := aqiData s;
     aqiVersion := aqiVersion s; iqairToken := iqairToken s;
     showMap := showMap s; searchResults := searchResults s;
     selectedLocation := selectedLocation s;
     mapInitialized := mapInitialized s; toasts := toasts s;
     network := network s; inflight := inflight s; timers := timers s;
     localStorage := localStorage s; mounted := mounted s;
     initEffectDeps := initEffectDeps s;
     initEffectCleanup := initEffectCleanup s;
     aqiEffectDeps := aqiEffectDeps s |}.

Definition set_maps (v : list Leaflet.Map) (s : state) : state :=
  {| map_current := map_current s; maps := v; aqiData := aqiData s;
     aqiVersion := aqiVersion s; iqairToken := iqairToken s;
     showMap := showMap s; searchResults := searchResults s;
     selectedLocation := selectedLocation s;
     mapInitialized := mapInitialized s; toasts := toasts s;
     network := network s; inflight := inflight s; timers := timers s;
     localStorage := localStorage s; mounted := mounted s;
     initEffectDeps := initEffectDeps s;
     initEffectCleanup := initEffectCleanup s;
     aqiEffectDeps := aqiEffectDeps s |}.

(** [setAqiData(v)]: the cell holds a new value; an array coming from a
    response or from an array literal is a new object each time, which is
    what the dependency comparison of the second effect sees. *)
Definition setAqiData (v : JS.value) (s : state) : state :=
  {| map_current := map_current s; maps := maps s; aqiData := v;
     aqiVersion := S (aqiVersion s); iqairToken := iqairToken s;
     showMap := showMap s; searchResults := searchResults s;
     selectedLocation := selectedLocation s;
     mapInitialized := mapInitialized s; toasts := toasts s;
     network := network s; inflight := inflight s; timers := timers s;
     localStorage := localStorage s; mounted := mounted s;
     initEffectDeps := initEffectDeps s;
     initEffectCleanup := initEffectCleanup s;
     aqiEffectDeps := aqiEffectDeps s |}.

Definition set_iqairToken (v : string) (s : state) : state :=
  {| map_current := map_current s; maps := maps s; aqiData := aqiData s;
     aqiVersion := aqiVersion s; iqairToken := v; showMap := showMap s;
     searchResults := searchResults s;
     selectedLocation := selectedLocation s;
     mapInitialized := mapInitialized s; toasts := toasts s;
     network := network s; inflight := inflight s; timers := timers s;
     localStorage := localStorage s; mounted := mounted s;
     initEffectDeps := initEffectDeps s;
     initEffectCleanup := initEffectCleanup s;
     aqiEffectDeps := aqiEffectDeps s |}.

Definition set_showMap (v : bool) (s : state) : state :=
  {| map_current := map_current s; maps := maps s; aqiData := aqiData s;
     aqiVersion := aqiVersion s; iqairToken := iqairToken s; showMap := v;
     searchResults := searchResults s;
     selectedLocation := selectedLocation s;
     mapInitialized := mapInitialized s; toasts := toasts s;
     network := network s; inflight := inflight s; timers := timers s;
     localStorage := localStorage s; mounted := mounted s;
     initEffectDeps := initEffectDeps s;
     initEffectCleanup := initEffectCleanup s;
     aqiEffectDeps := aqiEffectDeps s |}.

Definition set_searchResults (v : JS.value) (s : state) : state :=
  {| map_current := map_current s; maps := maps s; aqiData := aqiData s;
     aqiVersion := aqiVersion s; iqairToken := iqairToken s;
     showMap := showMap s; searchResults := v;
     selectedLocation := selectedLocation s;
     mapInitialized := mapInitialized s; toasts := toasts s;
     network := network s; inflight := inflight s; timers := timers s;
     localStorage := localStorage s; mounted := mounted s;
     initEffectDeps := initEffectDeps s;
     initEffectCleanup := initEffectCleanup s;
     aqiEffectDeps := aqiEffectDeps s |}.

Definition set_selectedLocation (v : option Leaflet.LatLng) (s : state) : state :=
  {| map_current := map_current s; maps := maps s; aqiData := aqiData s;
     aqiVersion := aqiVersion s; iqairToken := iqairToken s;
     showMap := showMap s; searchResults := searchResults s;
     selectedLocation := v; mapInitialized := mapInitialized s;
     toasts := toasts s; network := network s; inflight := inflight s;
     timers := timers s; localStorage := localStorage s;
     mounted := mounted s; initEffectDeps := initEffectDeps s;
     initEffectCleanup := initEffectCleanup s;
     aqiEffectDeps := aqiEffectDeps s |}.

Definition set_mapInitialized (v : bool) (s : state) : state :=
  {| map_current := map_current s; maps := maps s; aqiData := aqiData s;
     aqiVersion := aqiVersion s; iqairToken := iqairToken s;
     showMap := showMap s; searchResults := searchResults s;
     selectedLocation := selectedLocation s; mapInitialized := v;
     toasts := toasts s; network := network s; inflight := inflight s;
     timers := timers s; localStorage := localStorage s;
     mounted := mounted s; initEffectDeps := initEffectDeps s;
     initEffectCleanup := initEffectCleanup s;
     aqiEffectDeps := aqiEffectDeps s |}.

Definition set_toasts (v : list toast) (s : state) : state :=
  {| map_current := map_current s; maps := maps s; aqiData := aqiData s;
     aqiVersion := aqiVersion s; iqairToken := iqairToken s;
     showMap := showMap s; searchResults := searchResults s;
     selectedLocation := selectedLocation s;
     mapInitialized := mapInitialized s; toasts := v; network := network s;
     inflight := inflight s; timers := timers s;
     localStorage := localStorage s; mounted := mounted s;
     initEffectDeps := initEffectDeps s;
     initEffectCleanup := initEffectCleanup s;
     aqiEffectDeps := aqiEffectDeps s |}.

Definition set_network (v : list request) (s : state) : state :=
  {| map_current := map_current s; maps := maps s; aqiData := aqiData s;
     aqiVersion := aqiVersion s; iqairToken := iqairToken s;
     showMap := showMap s; searchResults := searchResults s;
     selectedLocation := selectedLocation s;
     mapInitialized := mapInitialized s; toasts := toasts s; network := v;
     inflight := inflight s; timers := timers s;
     localStorage := localStorage s; mounted := mounted s;
     initEffectDeps := initEffectDeps s;
     initEffectCleanup := initEffectCleanup s;
     aqiEffectDeps := aqiEffectDeps s |}.

Definition set_inflight (v : list pending) (s : state) : state :=
  {| map_current := map_current s; maps := maps s; aqiData := aqiData s;
     aqiVersion := aqiVersion s; iqairToken := iqairToken s;
     showMap := showMap s; searchResults := searchResults s;
     selectedLocation := selectedLocation s;
     mapInitialized := mapInitialized s; toasts := toasts s;
     network := network s; inflight := v; timers := timers s;
     localStorage := localStorage s; mounted := mounted s;
     initEffectDeps := initEffectDeps s;
     initEffectCleanup := initEffectCleanup s;
     aqiEffectDeps := aqiEffectDeps s |}.

Definition set_timers (v : nat) (s : state) : state :=
  {| map_current := map_current s; maps := maps s; aqiData := aqiData s;
     aqiVersion := aqiVersion s; iqairToken := iqairToken s;
     showMap := showMap s; searchResults := searchResults s;
     selectedLocation := selectedLocation s;
     mapInitialized := mapInitialized s; toasts := toasts s;
     network := network s; inflight := inflight s; timers := v;
     localStorage := localStorage s; mounted := mounted s;
     initEffectDeps := initEffectDeps s;
     initEffectCleanup := initEffectCleanup s;
     aqiEffectDeps := aqiEffectDeps s |}.

Definition set_localStorage (v : option string) (s : state) : state :=
  {| map_current := map_current s; maps := maps s; aqiData := aqiData s;
     aqiVersion := aqiVersion s; iqairToken := iqairToken s;
     showMap := showMap s; searchResults := searchResults s;
     selectedLocation := selectedLocation s;
     mapInitialized := mapInitialized s; toasts := toasts s;
     network := network s; inflight := inflight s; timers := timers s;
     localStorage := v; mounted := mounted s;
     initEffectDeps := initEffectDeps s;
     initEffectCleanup := initEffectCleanup s;
     aqiEffectDeps := aqiEffectDeps s |}.

Definition set_mounted (v : bool) (s : state) : state :=
  {| map_current := map_current s; maps := maps s; aqiData := aqiData s;
     aqiVersion := aqiVersion s; iqairToken := iqairToken s;
     showMap := showMap s; searchResults := searchResults s;
     selectedLocation := selectedLocation s;
     mapInitialized := mapInitialized s; toasts := toasts s;
     network := network s; inflight := inflight s; timers := timers s;
     localStorage := localStorage s; mounted := v;
     initEffectDeps := initEffectDeps s;
     initEffectCleanup := initEffectCleanup s;
     aqiEffectDeps := aqiEffectDeps s |}.

Definition set_initEffectDeps (v : option deps) (s : state) : state :=
  {| map_current := map_current s; maps := maps s; aqiData := aqiData s;
     aqiVersion := aqiVersion s; iqairToken := iqairToken s;
     showMap := showMap s; searchResults := searchResults s;
     selectedLocation := selectedLocation s;
     mapInitialized := mapInitialized s; toasts := toasts s;
     network := network s; inflight := inflight s; timers := timers s;
     localStorage := localStorage s; mounted := mounted s;
     initEffectDeps := v; initEffectCleanup := initEffectCleanup s;
     aqiEffectDeps := aqiEffectDeps s |}.

Definition set_initEffectCleanup (v : bool) (s : state) : state :=
  {| map_current := map_current s; maps := maps s; aqiData := aqiData s;
     aqiVersion := aqiVersion s; iqairToken := iqairToken s;
     showMap := showMap s; searchResults := searchResults s;
     selectedLocation := selectedLocation s;
     mapInitialized := mapInitialized s; toasts := toasts s;
     network := network s; inflight := inflight s; timers := timers s;
     localStorage := localStorage s; mounted := mounted s;
     initEffectDeps := initEffectDeps s; initEffectCleanup := v;
     aqiEffectDeps := aqiEffectDeps s |}.

Definition set_aqiEffectDeps (v : option nat) (s : state) : state :=
  {| map_current := map_current s; maps := maps s; aqiData := aqiData s;
     aqiVersion := aqiVersion s; iqairToken := iqairToken s;
     showMap := showMap s; searchResults := searchResults s;
     selectedLocation := selectedLocation s;
     mapInitialized := mapInitialized s; toasts := toasts s;
     network := network s; inflight := inflight s; timers := timers s;
     localStorage := localStorage s; mounted := mounted s;
     initEffectDeps := initEffectDeps s;
     initEffectCleanup := initEffectCleanup s; aqiEffectDeps := v |}.

(** [toast.error(msg)], [toast.warning(msg)] *)
Definition toast_error (msg : string) (s : state) : state :=
  set_toasts (toasts s ++ [(ErrorToast, msg)]) s.

Definition toast_warning (msg : string) (s : state) : state :=
  set_toasts (toasts s ++ [(WarningToast, msg)]) s.

(** [await axios.get(url)]: the request goes out and the caller is
    suspended until it settles. *)
Definition axios_get (r : request) (p : pending) (s : state) : state :=
  set_inflight (inflight s ++ [p]) (set_network (network s ++ [r]) s).

(** A method call on the map object [map.current] points to. *)
Definition update_map (i : nat) (f : Leaflet.Map -> Leaflet.Map) (s : state) : state :=
  set_maps (alter f i (maps s)) s.

(** The first render: [useState] initial values; the token comes from
    [localStorage.getItem('iqair_token') || '']. *)
Definition init (stored : option string) : state :=
  {| map_current := None; maps := []; aqiData := JS.Arr []; aqiVersion := 0;
     iqairToken := default EmptyString stored; showMap := false;
     searchResults := JS.Arr []; selectedLocation := None;
     mapInitialized := false; toasts := []; network := []; inflight := [];
     timers := 0; localStorage := stored; mounted := true;
     initEffectDeps := None; initEffectCleanup := false;
     aqiEffectDeps := None |}.

(** ** The component's functions *)
Section Controller.

(** [getAQIColor] of [@/lib/utils], the colour ramp. *)
Variable getAQIColor : float -> string.
(** The runtime's [parseFloat] on strings and its number-to-string
    conversion. *)
Variable parseFloat : string -> float.
Variable numberToString : float -> string.

Definition ToString : JS.value -> string := JS.ToString numberToString.

(** The value of a number (used only behind [typeof v === 'number']). *)
Definition number_of (v : JS.value) : float :=
  match v with JS.Num x => x | _ => PrimFloat.nan end.

(** Leaflet's [LatLng] constructor throws on a NaN coordinate; every call
    that takes a coordinate pair ([setView], [L.marker],
    [L.circleMarker]) goes through it. *)
Definition validLatLng (c : Leaflet.LatLng) : bool :=
  negb (PrimFloat.is_nan (fst c) || PrimFloat.is_nan (snd c)).

(** *** handleSaveToken *)
Definition handleSaveToken (s : state) : state :=
  if JS.blank (iqairToken s)
  then toast_error "Please enter a valid IQAir API token" s
  else set_showMap true (set_localStorage (Some (iqairToken s)) s).

(** *** handleSearch, up to its [await] *)
Definition handleSearch (query : string) (s : state) : state :=
  if negb (JS.truthy (JS.Str query))
  then set_searchResults (JS.Arr []) s
  else axios_get (NominatimSearch query) AwaitSearch s.

(** handleSearch after the [await]: [response.data.slice(0, 5)] is
    defined on arrays and strings; on any other payload the call throws
    inside the [try], as does a rejected request. *)
Definition handleSearch_settled (o : outcome) (s : state) : state :=
  match o with
  | Resolved (JS.Arr candidates) =>
      set_searchResults (JS.Arr (take 5 candidates)) s
  | Resolved (JS.Str str) =>
      set_searchResults (JS.Str (String.substring 0 5 str)) s
  | _ => toast_error "Error searching for locations" s
  end.

(** *** fetchAQIDataForLocation, up to its [await] *)
Definition offset : float := 0.18%float.

Definition fetchAQIDataForLocation (lat lon : float) (s : state) : state :=
  axios_get
    (WaqiBounds (lat - offset) (lon - offset) (lat + offset) (lon + offset)
                (iqairToken s))
    AwaitLocationAQI s.

(** Both fetch functions share the shape of their continuation and differ
    in the two messages. *)
Definition fetch_settled (noData failed : string) (o : outcome) (s : state) : state :=
  match o with
  | Resolved data =>
      if JS.truthy data && JS.truthy (JS.get data "data")
      then setAqiData (JS.or_else (JS.get data "data") (JS.Arr [])) s
      else toast_warning noData (setAqiData (JS.Arr []) s)
  | Rejected => setAqiData (JS.Arr []) (toast_error failed s)
  end.

Definition fetchAQIDataForLocation_settled : outcome -> state -> state :=
  fetch_settled "No air quality data available for this location"
                "Failed to load air quality data".

Definition fetchAQIData_settled : outcome -> state -> state :=
  fetch_settled "No air quality data available. Please check your API key."
                "Failed to load air quality data. Please check your API key.".

(** *** handleSelectLocation

    Reading [location.lat] of [null] or [undefined] throws before anything
    is done.  With a live map, [setView] throws on a NaN coordinate: the
    handler is abandoned after [setSelectedLocation]. *)
Definition selectedMarker (c : Leaflet.LatLng) (location : JS.value) : Leaflet.Layer :=
  Leaflet.Marker c
    (Some ("<b>" ++ ToString (JS.get location "display_name") ++ "</b>")) true.

Definition handleSelectLocation (location : JS.value) (s : state) : state :=
  match location with
  | JS.Undefined | JS.Null => s
  | _ =>
    let lat := parseFloat (ToString (JS.get location "lat")) in
    let lon := parseFloat (ToString (JS.get location "lon")) in
    let s1 := set_selectedLocation (Some (lat, lon)) s in
    let after_map :=
      match map_current s1 with
      | Some i =>
          if validLatLng (lat, lon)
          then Some (update_map i
                 (fun m => Leaflet.addTo (selectedMarker (lat, lon) location)
                             (Leaflet.removeLayersWhere Leaflet.isMarker
                                (Leaflet.setView (lat, lon) 12 m))) s1)
          else None
      | None => Some s1
      end in
    match after_map with
    | Some s2 => fetchAQIDataForLocation lat lon (set_searchResults (JS.Arr []) s2)
    | None => s1
    end
  end.

(** *** The first effect: map construction

    [initEffect] is the effect's function, run with the values of its
    dependencies in the render it belongs to; the boolean tells whether it
    returned the cleanup function (an early [return] returns none).  The
    container [div] is rendered exactly when [showMap] holds, so
    [mapContainer.current] is set exactly then. *)
Definition defaultCenter : Leaflet.LatLng := (39.8283, -98.5795)%float.
Definition defaultZoom : Z := 4.

Definition osmTiles : Leaflet.Layer :=
  Leaflet.TileLayer "https://{s}.tile.openstreetmap.org/{z}/{x}/{y}.png".

Definition usaBounds (token : string) : request :=
  WaqiBounds 24.396308 (-125.000000) 49.384358 (-66.934570) token.

Definition initEffect (c : construction) (d : deps) (s : state) : state * bool :=
  let '(showMap_, iqairToken_, mapInitialized_) := d in
  let mapContainer_current := showMap_ in
  if negb mapContainer_current || negb showMap_ || mapInitialized_
  then (s, false)
  else
    let fresh := Leaflet.map defaultCenter defaultZoom [osmTiles] in
    let id := length (maps s) in
    let s' :=
      match c with
      | MapThrows => toast_error "Failed to initialize map" s
      | ZoomControlThrows =>
          toast_error "Failed to initialize map"
            (set_map_current (Some id) (set_maps (maps s ++ [fresh]) s))
      | Constructed =>
          let s1 := set_map_current (Some id) (set_maps (maps s ++ [fresh]) s) in
          let s2 := update_map id (Leaflet.addZoomControl "topright") s1 in
          let s3 := set_mapInitialized true s2 in
          let s4 := axios_get (usaBounds iqairToken_) AwaitInitialAQI s3 in
          set_timers (S (timers s4)) s4
      end in
    (s', true).

(** The cleanup function returned by the first effect. *)
Definition initCleanup (s : state) : state :=
  match map_current s with
  | Some i =>
      set_mapInitialized false
        (set_map_current None (update_map i Leaflet.remove s))
  | None => s
  end.

(** The [setTimeout] callback. *)
Definition onTimeout (s : state) : state :=
  match timers s with
  | O => s
  | S n =>
      let s' := set_timers n s in
      match map_current s' with
      | Some i => update_map i Leaflet.invalidateSize s'
      | None => s'
      end
  end.

(** *** The second effect: drawing the readings *)
Definition validReading (point : JS.value) : bool :=
  JS.truthy point
  && String.eqb (JS.typeof (JS.get point "lat")) "number"
  && String.eqb (JS.typeof (JS.get point "lon")) "number"
  && String.eqb (JS.typeof (JS.get point "aqi")) "number".

Definition readingLatLng (point : JS.value) : Leaflet.LatLng :=
  (number_of (JS.get point "lat"), number_of (JS.get point "lon")).

Definition readingMarker (point : JS.value) : Leaflet.Layer :=
  Leaflet.CircleMarker (readingLatLng point)
    {| Leaflet.radius := 8;
       Leaflet.fillColor := getAQIColor (number_of (JS.get point "aqi"));
       Leaflet.color := "#fff";
       Leaflet.weight := 1;
       Leaflet.opacity := 1;
       Leaflet.fillOpacity := 0.8 |}
    (Some ("<b>AQI: " ++ ToString (JS.get point "aqi") ++ "</b><br>"
           ++ ToString (JS.or_else (JS.get_opt (JS.get point "station") "name")
                                   (JS.Str "Unknown Station")))).

(** [aqiData.forEach(point => ...)] on the map: a reading that fails the
    [typeof] tests is skipped; [L.circleMarker] throws on a NaN
    coordinate, which abandons the loop. *)
Fixpoint addReadings (points : list JS.value) (m : Leaflet.Map) : Leaflet.Map :=
  match points with
  | [] => m
  | point :: rest =>
      if validReading point
      then if validLatLng (readingLatLng point)
           then addReadings rest (Leaflet.addTo (readingMarker point) m)
           else m
      else addReadings rest m
  end.

(** The effect returns at once when [map.current] is null, when
    [aqiData] is not an array and when the array is empty. *)
Definition reconcileEffect (s : state) : state :=
  match map_current s with
  | None => s
  | Some i =>
      match aqiData s with
      | JS.Arr ((_ :: _) as points) =>
          update_map i
            (fun m => addReadings points
                        (Leaflet.removeLayersWhere Leaflet.isCircleMarker m)) s
      | _ => s
      end
  end.

(** ** React's scheduling of the two effects

    After a render React compares each effect's dependencies with those of
    the previous render.  For an effect whose dependencies changed it
    first calls the cleanup function the previous run returned, if any,
    then the effect's function with the values of the new render.  State
    set from inside an effect or a cleanup is seen by the next render
    only.  The first render runs every effect. *)
Definition render (c : construction) (s : state) : state :=
  if negb (mounted s) then s
  else
    let d : deps := (showMap s, iqairToken s, mapInitialized s) in
    let v := aqiVersion s in
    let s1 :=
      if decide (initEffectDeps s = Some d) then s
      else
        let s' := if initEffectCleanup s then initCleanup s else s in
        let '(s'', cleanup) := initEffect c d s' in
        set_initEffectCleanup cleanup (set_initEffectDeps (Some d) s'') in
    if decide (aqiEffectDeps s1 = Some v) then s1
    else set_aqiEffectDeps (Some v) (reconcileEffect s1).

(** Unmounting runs the pending cleanup.  Nothing is rendered afterwards:
    state set by a continuation that settles later stays in the record
    unobserved. *)
Definition unmount (s : state) : state :=
  if negb (mounted s) then s
  else
    let s' := if initEffectCleanup s then initCleanup s else s in
    set_mounted false (set_initEffectCleanup false s').

(** The continuation of a suspended async function. *)
Definition settle (p : pending) (o : outcome) (s : state) : state :=
  match p with
  | AwaitSearch => handleSearch_settled o s
  | AwaitInitialAQI => fetchAQIData_settled o s
  | AwaitLocationAQI => fetchAQIDataForLocation_settled o s
  end.

(** What can happen to the component.  The token form is on screen while
    [showMap] is false, the search bar once it is true. *)
Inductive event :=
| ChangeToken (v : string)
| SaveToken
| Search (query : string)
| Select (location : JS.value)
| Settle (i : nat) (o : outcome)
| Timeout
| Render (c : construction)
| Unmount.

Definition step (e : event) (s : state) : state :=
  match e with
  | ChangeToken v =>
      if mounted s && negb (showMap s) then set_iqairToken v s else s
  | SaveToken =>
      if mounted s && negb (showMap s) then handleSaveToken s else s
  | Search query =>
      if mounted s && showMap s then handleSearch query s else s
  | Select location =>
      if mounted s && showMap s then handleSelectLocation location s else s
  | Settle i o =>
      match inflight s !! i with
      | Some p => settle p o (set_inflight (delete i (inflight s)) s)
      | None => s
      end
  | Timeout => onTimeout s
  | Render c => render c s
  | Unmount => unmount s
  end.

Definition run (es : list event) (s : state) : state :=
  fold_left (fun s e => step e s) es s.

(** States the component can be in. *)
Inductive reachable : state -> Prop :=
| reachable_init stored : reachable (init stored)
| reachable_step e s : reachable s -> reachable (step e s).

End Controller.

(** ** A concrete runtime

    The three functions the component takes from its environment, fixed so
    that it can be run on examples.  The theorems below hold for every
    choice of them. *)

Definition digit (c : Ascii.ascii) : option Z :=
  let n := Ascii.nat_of_ascii c in
  if (48 <=? n)%nat && (n <=? 57)%nat then Some (Z.of_nat (n - 48)) else None.

(** Reads [digits[.digits]]: the digits read so far as an integer, the
    number of them after the point, and whether any digit was seen. *)
Fixpoint scan (s : string) (frac : bool) (m k : Z) (seen : bool) : Z * Z * bool :=
  match s with
  | EmptyString => (m, k, seen)
  | String c rest =>
      match digit c with
      | Some d => scan rest frac (10 * m + d) (if frac then k + 1 else k) true
      | None =>
          if Ascii.eqb c "."%char && negb frac
          then scan rest true m k seen
          else (m, k, seen)
      end
  end.

(** [parseFloat] on plain decimal numerals of at most fifteen digits, where
    one correctly rounded division gives the nearest binary64 number. *)
Definition parseDecimal (s : string) : float :=
  let '(negative, body) :=
    match s with
    | String "-"%char rest => (true, rest)
    | _ => (false, s)
    end in
  let '(m, k, seen) := scan body false 0 0 false in
  if seen
  then
    let x := (PrimFloat.of_uint63 (Uint63.of_Z m)
              / PrimFloat.of_uint63 (Uint63.of_Z (10 ^ k)))%float in
    if negative then (- x)%float else x
  else PrimFloat.nan.

(** Number-to-string conversion on the integers; other numbers are not
    printed by the examples. *)
Definition showNumber (x : float) : string :=
  match Prim2SF x with
  | S754_zero _ => "0"
  | S754_infinity false => "Infinity"
  | S754_infinity true => "-Infinity"
  | S754_nan => "NaN"
  | S754_finite negative m e =>
      let z := if (0 <=? e)%Z
               then (Z.pos m * 2 ^ e)%Z
               else (Z.pos m / 2 ^ (- e))%Z in
      if negative then "-" ++ pretty z else pretty z
  end.

(** A colour ramp. *)
Definition aqiColor (aqi : float) : string :=
  if (aqi <=? 50)%float then "#00e400"
  else if (aqi <=? 100)%float then "#ffff00"
  else "#ff0000".

(** A reading as the data service sends it, and a search candidate as the
    geocoder sends it. *)
Definition reading (lat lon aqi : float) (station : string) : JS.value :=
  JS.Obj [("lat", JS.Num lat); ("lon", JS.Num lon); ("aqi", JS.Num aqi);
          ("station", JS.Obj [("name", JS.Str station)])].

Definition candidate (display_name lat lon : string) : JS.value :=
  JS.Obj [("display_name", JS.Str display_name);
          ("lat", JS.Str lat); ("lon", JS.Str lon)].

Definition paris : JS.value := candidate "Paris" "48.8566" "2.3522".

(** The component run on the concrete runtime. *)
Definition exec : list event -> state -> state :=
  run aqiColor parseDecimal showNumber.

(** Readings whose coordinates, when they are numbers, are not NaN; every
    payload decoded from JSON is of this kind. *)
Definition coordinatesOk (points : list JS.value) : bool :=
  forallb (fun p => negb (validReading p) || validLatLng (readingLatLng p)) points.

(** A reading with a coordinate or index field that is not a number. *)
Definition malformed (point : JS.value) : Prop :=
  JS.typeof (JS.get point "lat") ≠ "number"
  ∨ JS.typeof (JS.get point "lon") ≠ "number"
  ∨ JS.typeof (JS.get point "aqi") ≠ "number".

(** A reading that is an object whose [lat], [lon] and [aqi] are numbers. *)
Definition numericReading (point : JS.value) : Prop :=
  exists props lat lon aqi,
    point = JS.Obj props
    /\ JS.assoc "lat" props = JS.Num lat
    /\ JS.assoc "lon" props = JS.Num lon
    /\ JS.assoc "aqi" props = JS.Num aqi.

(** The layers of a map that are not reading markers. *)
Definition otherLayers (m : Leaflet.Map) : list Leaflet.Layer :=
  List.filter (fun l => negb (Leaflet.isCircleMarker l)) (Leaflet.layers m).


Definition isFetch (p : pending) : bool :=
  match p with AwaitSearch => false | _ => true end.


(** [null] and [undefined]. *)
Definition nullish (v : JS.value) : bool :=
  match v with JS.Undefined | JS.Null => true | _ => false end.

(** Two numbers that differ by less than 0.005. *)
Definition near (x y : float) : bool := (PrimFloat.abs (x - y) <? 0.005)%float.

(** The layers of a map that are plain markers, and those that are not. *)
Definition markers (m : Leaflet.Map) : list Leaflet.Layer :=
  List.filter Leaflet.isMarker (Leaflet.layers m).

Definition nonMarkers (m : Leaflet.Map) : list Leaflet.Layer :=
  List.filter (fun l => negb (Leaflet.isMarker l)) (Leaflet.layers m).

(** A map object that has not been destroyed. *)
Definition live (s : state) (j : nat) : Prop :=
  exists m, maps s !! j = Some m /\ Leaflet.removed m = false.


(** A method of the map object that does not destroy it. *)
Definition keepsAlive (f : Leaflet.Map -> Leaflet.Map) : Prop :=
  forall m, Leaflet.removed (f m) = Leaflet.removed m.

(** The handle and the map objects agree: the handle points to a map that
    is not destroyed, and no other map is alive. *)
Definition handleOk (s : state) : Prop :=
  (forall i, map_current s = Some i -> live s i)
  /\ (forall j, live s j -> map_current s = Some j).

(** While the handle is set, React holds the cleanup function that will
    clear it. *)
Definition cleanupOk (s : state) : Prop :=
  forall i, map_current s = Some i -> initEffectCleanup s = true.

(** The destroyed maps of [s] are in [s'] what they were in [s]. *)
Definition destroyedKept (s s' : state) : Prop :=
  forall j m, maps s !! j = Some m -> Leaflet.removed m = true ->
              maps s' !! j = Some m.

(** A transition that leaves the handle alone and at most calls a method
    that does not destroy on the map the handle points to. *)
Definition usesCurrent (s s' : state) : Prop :=
  map_current s' = map_current s
  /\ initEffectCleanup s' = initEffectCleanup s
  /\ (maps s' = maps s
      \/ exists i f, map_current s = Some i /\ keepsAlive f
                     /\ maps s' = alter f i (maps s)).


(** ** Example runs *)

(** The component is mounted with the stored token [k], the token is saved
    and the render that follows constructs the map. *)
Definition unlocked : state :=
  exec [Render Constructed; SaveToken; Render Constructed] (init (Some "k")).

Definition station1 : JS.value := reading 48.85 2.35 42 "Paris Centre".
Definition station2 : JS.value := reading 48.9 2.4 120 "Saint-Denis".
Definition noIndex : JS.value :=
  JS.Obj [("lat", JS.Num 48.8); ("lon", JS.Num 2.3); ("aqi", JS.Str "-")].

(** The initial fetch is answered with one reading. *)
Definition oneReading : outcome :=
  Resolved (JS.Obj [("data", JS.Arr [station1])]).

(** The answer arrives right after the construction, while the map is
    alive; then the component renders twice. *)
Definition answeredEarly : state := exec [Settle 0 oneReading] unlocked.
Definition answeredEarly1 : state := exec [Render Constructed] answeredEarly.
Definition answeredEarly2 : state := exec [Render Constructed] answeredEarly1.

(** The answer arrives one render later, when the map has been removed;
    then the component renders three times. *)
Definition answeredLate : state :=
  exec [Render Constructed; Settle 0 oneReading] unlocked.
Definition answeredLate1 : state := exec [Render Constructed] answeredLate.
Definition answeredLate2 : state := exec [Render Constructed] answeredLate1.
Definition answeredLate3 : state := exec [Render Constructed] answeredLate2.

(** The circle markers on the map the handle points to; none when the
    handle is null. *)
Definition shownReadings (s : state) : list Leaflet.Layer :=
  match map_current s with
  | Some i =>
      match maps s !! i with
      | Some m => List.filter Leaflet.isCircleMarker (Leaflet.layers m)
      | None => []
      end
  | None => []
  end.

(** A run in which constructing the zoom control throws, so that the map
    stays as it is: a place is selected and its readings are drawn; a
    second selection's fetch is rejected. *)
Definition staleRun : state :=
  exec [Render Constructed; SaveToken; Render ZoomControlThrows;
        Select paris;
        Settle 0 (Resolved (JS.Obj [("data", JS.Arr [station1])]));
        Render Constructed;
        Select paris; Settle 0 Rejected; Render Constructed]
       (init (Some "k")).

(** A search that succeeds, followed by one that is rejected. *)
Definition searchedTwice : state :=
  exec [Search "Paris"; Settle 1 (Resolved (JS.Arr [paris]));
        Search "Lyon"; Settle 1 Rejected] unlocked.

(** The readings [[station1; noIndex; station2]] are about to be drawn. *)
Definition mixedBatch : state :=
  setAqiData (JS.Arr [station1; noIndex; station2]) unlocked.


(** ** Predicates for the properties of the session and of the maps *)

(** The state of the component while the token form is on screen: nothing
    has been built, requested or received. *)
Definition pristine (s : state) : Prop :=
  maps s = [] /\ map_current s = None
  /\ network s = [] /\ inflight s = []
  /\ aqiData s = JS.Arr [] /\ searchResults s = JS.Arr []
  /\ selectedLocation s = None
  /\ mapInitialized s = false /\ timers s = 0
  /\ initEffectCleanup s = false
  /\ (forall d, initEffectDeps s = Some d -> fst (fst d) = false).

(** A request carries the token [tok] when it is a readings request made
    with it; the geocoder takes no token. *)
Definition carries (tok : string) (r : request) : Prop :=
  match r with
  | WaqiBounds _ _ _ _ t => t = tok
  | NominatimSearch _ => True
  end.

(** The state of the session once the map is shown. *)
Definition tokenSaved (s : state) : Prop :=
  JS.blank (iqairToken s) = false
  /\ localStorage s = Some (iqairToken s)
  /\ Forall (carries (iqairToken s)) (network s).

Definition sessionOk (s : state) : Prop :=
  if showMap s then tokenSaved s else pristine s.


(** A payload with no [slice] method. *)
Definition unsliceable (v : JS.value) : bool :=
  match v with
  | JS.Arr _ | JS.Str _ => false
  | _ => true
  end.

(** [layer instanceof L.TileLayer] *)
Definition isTileLayer (l : Leaflet.Layer) : bool :=
  match l with Leaflet.TileLayer _ => true | _ => false end.

(** A map carries at most one plain marker, and while it is not destroyed
    its only tile layer is the one it was built with. *)
Definition layersOk (m : Leaflet.Map) : Prop :=
  length (markers m) <= 1
  /\ (Leaflet.removed m = false ->
      List.filter isTileLayer (Leaflet.layers m) = [osmTiles]).

(** The situation right after a map has been constructed: the handle is
    set, [mapInitialized] has just been set, and React holds the cleanup
    and the dependencies of the run that constructed the map. *)
Definition justConstructed (s : state) : Prop :=
  mounted s = true /\ showMap s = true /\ mapInitialized s = true
  /\ initEffectCleanup s = true
  /\ (exists i, map_current s = Some i)
  /\ initEffectDeps s = Some (true, iqairToken s, false).

(** Example readings with a missing or unusable field. *)
Definition noStation : JS.value :=
  JS.Obj [("lat", JS.Num 48.8); ("lon", JS.Num 2.3); ("aqi", JS.Num 7)].

Definition stringIndex : JS.value :=
  JS.Obj [("lat", JS.Num 48.8); ("lon", JS.Num 2.3); ("aqi", JS.Str "42")].

(** The component mounted with a stored token, the form still on screen. *)
Definition mounted0 : state :=
  exec [Render Constructed] (init (Some "k")).

(** Two selections in a row: two fetches are in flight after the initial
    one. *)
Definition twoFetches : state :=
  exec [Select paris; Select (candidate "Lyon" "45.764" "4.8357")] unlocked.


(** * Properties *)

(** Closed goals about example runs are settled by running the component. *)
Ltac evaluate := vm_compute; reflexivity.

Section Properties.

Variable getAQIColor : float -> string.
Variable parseFloat : string -> float.
Variable numberToString : float -> string.

Local Abbreviation addReadings := (addReadings getAQIColor numberToString).
Local Abbreviation readingMarker := (readingMarker getAQIColor numberToString).
Local Abbreviation reconcileEffect := (reconcileEffect getAQIColor numberToString).
Local Abbreviation handleSelectLocation :=
  (handleSelectLocation parseFloat numberToString).
Local Abbreviation render := (render getAQIColor numberToString).
Local Abbreviation step := (step getAQIColor parseFloat numberToString).
Local Abbreviation run := (run getAQIColor parseFloat numberToString).
Local Abbreviation reachable := (reachable getAQIColor parseFloat numberToString).

(** ** Drawing the readings *)

Lemma removeCircleMarkers_addTo point m :
  Leaflet.removeLayersWhere Leaflet.isCircleMarker
    (Leaflet.addTo (readingMarker point) m)
  = Leaflet.removeLayersWhere Leaflet.isCircleMarker m.
Proof.
  unfold Leaflet.removeLayersWhere, Leaflet.addTo, Leaflet.withLayers; simpl.
  rewrite List.filter_app; simpl. now rewrite app_nil_r.
Qed.

(** The loop only adds reading markers: removing them afterwards gives what
    removing them before gives. *)
Lemma removeCircleMarkers_addReadings points : forall m,
  Leaflet.removeLayersWhere Leaflet.isCircleMarker (addReadings points m)
  = Leaflet.removeLayersWhere Leaflet.isCircleMarker m.
Proof.
  induction points as [|point rest IH]; intros m; simpl; [reflexivity|].
  destruct (validReading point); [|apply IH].
  destruct (validLatLng (readingLatLng point)); [|reflexivity].
  rewrite IH. apply removeCircleMarkers_addTo.
Qed.

Lemma removeCircleMarkers_twice m :
  Leaflet.removeLayersWhere Leaflet.isCircleMarker
    (Leaflet.removeLayersWhere Leaflet.isCircleMarker m)
  = Leaflet.removeLayersWhere Leaflet.isCircleMarker m.
Proof.
  unfold Leaflet.removeLayersWhere, Leaflet.withLayers; simpl. f_equal.
  induction (Leaflet.layers m) as [|l ls IH]; simpl; [reflexivity|].
  destruct (Leaflet.isCircleMarker l) eqn:E; simpl; rewrite ?E; simpl;
    now rewrite ?IH.
Qed.

(** A malformed reading fails the test of the loop. *)
Lemma malformed_not_valid point : malformed point -> validReading point = false.
Proof.
  unfold malformed, validReading. intros H.
  destruct (String.eqb_spec (JS.typeof (JS.get point "lat")) "number");
  destruct (String.eqb_spec (JS.typeof (JS.get point "lon")) "number");
  destruct (String.eqb_spec (JS.typeof (JS.get point "aqi")) "number");
    rewrite ?andb_false_r; try reflexivity.
  destruct H as [H|[H|H]]; contradiction.
Qed.

Lemma addReadings_skip before bad after : forall m,
  validReading bad = false ->
  addReadings (before ++ bad :: after) m = addReadings (before ++ after) m.
Proof.
  induction before as [|point rest IH]; intros m Hbad; simpl.
  - now rewrite Hbad.
  - destruct (validReading point); [|now apply IH].
    destruct (validLatLng (readingLatLng point)); [|reflexivity].
    now apply IH.
Qed.

(** Without NaN coordinates the loop appends one marker per reading that
    passes the test, in order. *)
Lemma addReadings_layers points : forall m,
  coordinatesOk points = true ->
  addReadings points m
  = Leaflet.withLayers
      (Leaflet.layers m
       ++ List.map readingMarker (List.filter validReading points)) m.
Proof.
  induction points as [|point rest IH]; intros m Hok; simpl.
  - rewrite app_nil_r. now destruct m.
  - simpl in Hok. apply andb_true_iff in Hok as [Hp Hrest].
    destruct (validReading point) eqn:Hv; simpl in *.
    + rewrite Hp, IH by assumption. simpl.
      unfold Leaflet.withLayers; simpl. now rewrite <- app_assoc.
    + now apply IH.
Qed.

(** What the second effect does when it does not return early. *)
Lemma reconcileEffect_live s i point rest :
  map_current s = Some i ->
  aqiData s = JS.Arr (point :: rest) ->
  reconcileEffect s
  = update_map i
      (fun m => addReadings (point :: rest)
                  (Leaflet.removeLayersWhere Leaflet.isCircleMarker m)) s.
Proof. intros Hi Hd. unfold reconcileEffect. now rewrite Hi, Hd. Qed.

(** The second effect returns early on an empty list. *)
Lemma reconcileEffect_empty s :
  aqiData s = JS.Arr [] -> reconcileEffect s = s.
Proof.
  intros Hd. unfold reconcileEffect. rewrite Hd. now destruct (map_current s).
Qed.

Lemma readingMarkers_are_circles points :
  List.filter Leaflet.isCircleMarker (List.map readingMarker points)
  = List.map readingMarker points.
Proof.
  induction points as [|p ps IH]; [reflexivity|].
  simpl. now rewrite IH.
Qed.

Lemma readingMarkers_not_plain points :
  List.filter Leaflet.isMarker (List.map readingMarker points) = [].
Proof. induction points as [|p ps IH]; [reflexivity|exact IH]. Qed.

Lemma no_circle_left ls :
  List.filter Leaflet.isCircleMarker
    (List.filter (fun l => negb (Leaflet.isCircleMarker l)) ls) = [].
Proof.
  induction ls as [|l ls IH]; [reflexivity|].
  simpl. destruct (Leaflet.isCircleMarker l) eqn:E; simpl; rewrite ?E; exact IH.
Qed.

Lemma plain_markers_kept ls :
  List.filter Leaflet.isMarker
    (List.filter (fun l => negb (Leaflet.isCircleMarker l)) ls)
  = List.filter Leaflet.isMarker ls.
Proof.
  induction ls as [|l ls IH]; [reflexivity|].
  destruct l; simpl; now rewrite IH.
Qed.

(** On a live map and a list with at least one reading (no coordinate
    being NaN), the second effect leaves exactly one reading marker per
    well-formed reading of the list, in order, after the layers that are
    not reading markers; the plain markers are the ones the map had. *)
Lemma reconcileEffect_nonempty s i m point rest :
  map_current s = Some i ->
  maps s !! i = Some m ->
  aqiData s = JS.Arr (point :: rest) ->
  coordinatesOk (point :: rest) = true ->
  exists m',
    maps (reconcileEffect s) !! i = Some m'
    /\ List.filter Leaflet.isCircleMarker (Leaflet.layers m')
       = List.map readingMarker (List.filter validReading (point :: rest))
    /\ markers m' = markers m.
Proof.
  intros Hi Hm Hd Hok.
  rewrite (reconcileEffect_live s i point rest Hi Hd).
  unfold update_map, set_maps; cbn [maps]. rewrite list_lookup_alter_eq, Hm.
  cbn [fmap option_fmap option_map]. eexists. split; [reflexivity|].
  rewrite addReadings_layers by assumption.
  generalize (List.filter validReading (point :: rest)). intros valid.
  unfold markers, Leaflet.removeLayersWhere, Leaflet.withLayers;
    cbn [Leaflet.layers].
  rewrite !List.filter_app.
  rewrite readingMarkers_are_circles, readingMarkers_not_plain,
    no_circle_left, plain_markers_kept.
  now rewrite app_nil_r.
Qed.

(** C6: running the second effect twice on the same list of readings gives
    the state that running it once gives: the reading markers are removed
    and drawn again, so the layers of the map are the same. *)
Theorem reconcile_idempotent s :
  reconcileEffect (reconcileEffect s) = reconcileEffect s.
Proof.
  destruct (map_current s) as [i|] eqn:Hi.
  2: { unfold reconcileEffect; rewrite Hi. unfold reconcileEffect. now rewrite Hi. }
  destruct (aqiData s) as [| | | | |[|point rest]|] eqn:Hd;
    try (unfold reconcileEffect; rewrite Hi, Hd;
         unfold reconcileEffect; now rewrite Hi, Hd).
  rewrite (reconcileEffect_live s i point rest) by assumption.
  set (points := point :: rest) in *.
  set (f := fun m => addReadings points
                      (Leaflet.removeLayersWhere Leaflet.isCircleMarker m)).
  rewrite (reconcileEffect_live _ i point rest) by assumption.
  fold points; fold f.
  unfold update_map, set_maps; cbn [maps]. f_equal.
  rewrite list_alter_alter_eq. apply list_alter_ext; [|reflexivity].
  intros m _. unfold compose, f.
  now rewrite removeCircleMarkers_addReadings, removeCircleMarkers_twice.
Qed.

(** C7: a reading whose [lat], [lon] or [aqi] is not a number gets no
    marker and changes nothing for the others: on a live map, the second
    effect run on a list that contains it leaves the map as the loop over
    the rest of the list leaves it, and (no coordinate being NaN, as in any
    decoded JSON) that is the map's other layers followed by one marker per
    well-formed reading of the rest of the list, in order. *)
Theorem malformed_reading_excluded s i m before bad after :
  map_current s = Some i ->
  maps s !! i = Some m ->
  aqiData s = JS.Arr (before ++ bad :: after) ->
  malformed bad ->
  validReading bad = false
  /\ maps (reconcileEffect s) !! i
     = Some (addReadings (before ++ after)
               (Leaflet.removeLayersWhere Leaflet.isCircleMarker m))
  /\ (coordinatesOk (before ++ after) = true ->
      maps (reconcileEffect s) !! i
      = Some (Leaflet.withLayers
                (otherLayers m
                 ++ List.map readingMarker
                      (List.filter validReading (before ++ after))) m)).
Proof.
  intros Hi Hm Hd Hbad.
  apply malformed_not_valid in Hbad.
  assert (Hrun : maps (reconcileEffect s) !! i
                 = Some (addReadings (before ++ after)
                           (Leaflet.removeLayersWhere Leaflet.isCircleMarker m))).
  { destruct (before ++ bad :: after)%list as [|point rest] eqn:Hl.
    { now destruct before. }
    rewrite (reconcileEffect_live s i point rest) by assumption.
    rewrite <- Hl.
    unfold update_map, set_maps; cbn [maps]. rewrite list_lookup_alter_eq, Hm.
    cbn [fmap option_fmap option_map]. f_equal.
    now apply addReadings_skip. }
  split; [exact Hbad|]. split; [exact Hrun|].
  intros Hok. rewrite Hrun, addReadings_layers by assumption. reflexivity.
Qed.

(** ** Fetching *)

Lemma settle_step s i p o :
  inflight s !! i = Some p ->
  step (Settle i o) s = settle p o (set_inflight (delete i (inflight s)) s).
Proof. intros H. unfold step. now rewrite H. Qed.


(** ** Searching *)

(** A rejected search leaves the candidates as they were. *)
Lemma search_rejected_keeps_results s :
  searchResults (handleSearch_settled Rejected s) = searchResults s
  /\ toasts (handleSearch_settled Rejected s)
     = (toasts s ++ [(ErrorToast, "Error searching for locations")])%list.
Proof. split; reflexivity. Qed.

(** C9, as the code has it: the empty query empties the candidate list at
    once and sends nothing; every other query, a blank one included, is
    sent to the geocoder, and when the answer is a list the candidates
    become its first five entries at most, in the order received. *)
Theorem search_candidates s query :
  (query = EmptyString ->
     searchResults (handleSearch query s) = JS.Arr []
     /\ network (handleSearch query s) = network s
     /\ inflight (handleSearch query s) = inflight s)
  /\ (query <> EmptyString ->
       network (handleSearch query s) = (network s ++ [NominatimSearch query])%list
       /\ inflight (handleSearch query s) = (inflight s ++ [AwaitSearch])%list
       /\ forall candidates s1,
            searchResults (handleSearch_settled (Resolved (JS.Arr candidates)) s1)
            = JS.Arr (take 5 candidates)
            /\ length (take 5 candidates) <= 5
            /\ take 5 candidates `prefix_of` candidates).
Proof.
  split.
  - intros ->. repeat split.
  - intros Hq. unfold handleSearch; simpl.
    destruct (String.eqb_spec query EmptyString) as [->|_]; [contradiction|].
    simpl. repeat split.
    + rewrite length_take. lia.
    + apply prefix_take.
Qed.

(** ** Selecting a place *)

(** C5: with a live map, selecting a candidate whose coordinates parse to
    numbers centres the map on them at zoom 12, above the overview zoom 4
    the map is created with; replaces the plain markers of the map by one
    marker at the coordinates with the candidate's display name in its open
    popup and leaves the other layers; empties the candidate list; and
    requests the readings of the box that extends 0.18 degrees from the
    coordinates in each direction.  For Paris that box is about
    (48.68, 2.17)-(49.04, 2.53). *)
Theorem select_location_live s i m location :
  map_current s = Some i ->
  maps s !! i = Some m ->
  nullish location = false ->
  let lat := parseFloat (ToString numberToString (JS.get location "lat")) in
  let lon := parseFloat (ToString numberToString (JS.get location "lon")) in
  validLatLng (lat, lon) = true ->
  let s' := handleSelectLocation location s in
  (exists m',
      maps s' !! i = Some m'
      /\ Leaflet.center m' = (lat, lon)
      /\ Leaflet.zoom m' = 12%Z
      /\ (defaultZoom < 12)%Z
      /\ markers m'
         = [Leaflet.Marker (lat, lon)
              (Some ("<b>"
                     ++ ToString numberToString (JS.get location "display_name")
                     ++ "</b>")) true]
      /\ nonMarkers m' = nonMarkers m)
  /\ searchResults s' = JS.Arr []
  /\ selectedLocation s' = Some (lat, lon)
  /\ network s'
     = (network s
        ++ [WaqiBounds (lat - offset) (lon - offset) (lat + offset) (lon + offset)
                       (iqairToken s)])%list
  /\ inflight s' = (inflight s ++ [AwaitLocationAQI])%list
  /\ offset = 0.18%float
  /\ near (48.8566 - offset) 48.68 = true
  /\ near (2.3522 - offset) 2.17 = true
  /\ near (48.8566 + offset) 49.04 = true
  /\ near (2.3522 + offset) 2.53 = true.
Proof.
  intros Hi Hm Hn lat lon Hv s'.
  assert (Hs : s' = fetchAQIDataForLocation lat lon
                 (set_searchResults (JS.Arr [])
                    (update_map i
                       (fun m => Leaflet.addTo (selectedMarker numberToString (lat, lon) location)
                                   (Leaflet.removeLayersWhere Leaflet.isMarker
                                      (Leaflet.setView (lat, lon) 12 m)))
                       (set_selectedLocation (Some (lat, lon)) s)))).
  { subst s'. unfold handleSelectLocation. fold lat lon.
    cbn [map_current set_selectedLocation]. rewrite Hi, Hv.
    destruct location; (discriminate || reflexivity). }
  rewrite Hs. clear Hs s'.
  split; [|repeat split].
  eexists. split.
  { unfold fetchAQIDataForLocation, axios_get, update_map, set_inflight,
      set_network, set_searchResults, set_maps, set_selectedLocation;
      cbn [maps]. rewrite list_lookup_alter_eq, Hm. reflexivity. }
  unfold markers, nonMarkers; cbn.
  repeat split.
  - rewrite List.filter_app; cbn.
    replace (List.filter Leaflet.isMarker
               (List.filter (fun l => negb (Leaflet.isMarker l)) (Leaflet.layers m)))
      with (@nil Leaflet.Layer); [reflexivity|].
    induction (Leaflet.layers m) as [|l ls IH]; cbn; [reflexivity|].
    destruct (Leaflet.isMarker l) eqn:E; cbn; rewrite ?E; exact IH.
  - rewrite List.filter_app; cbn. rewrite app_nil_r.
    induction (Leaflet.layers m) as [|l ls IH]; cbn; [reflexivity|].
    destruct (Leaflet.isMarker l) eqn:E; cbn; rewrite ?E; cbn; now rewrite ?IH.
Qed.

(** C10: with no map ([map.current] is null), selecting a candidate
    touches no map object, yet records the coordinates, empties the
    candidate list and requests the readings of the region; when that
    request is answered with data, the data become the list of readings. *)
Theorem select_location_without_map s location :
  map_current s = None ->
  nullish location = false ->
  let lat := parseFloat (ToString numberToString (JS.get location "lat")) in
  let lon := parseFloat (ToString numberToString (JS.get location "lon")) in
  let s' := handleSelectLocation location s in
  maps s' = maps s
  /\ map_current s' = None
  /\ searchResults s' = JS.Arr []
  /\ selectedLocation s' = Some (lat, lon)
  /\ network s'
     = (network s
        ++ [WaqiBounds (lat - offset) (lon - offset) (lat + offset) (lon + offset)
                       (iqairToken s)])%list
  /\ inflight s' = (inflight s ++ [AwaitLocationAQI])%list
  /\ forall data,
       JS.truthy data = true ->
       let s'' := step (Settle (length (inflight s))
                          (Resolved (JS.Obj [("data", data)]))) s' in
       aqiData s'' = data /\ maps s'' = maps s /\ map_current s'' = None.
Proof.
  intros Hi Hn lat lon s'.
  assert (Hs : s' = fetchAQIDataForLocation lat lon
                 (set_searchResults (JS.Arr [])
                    (set_selectedLocation (Some (lat, lon)) s))).
  { subst s'. unfold handleSelectLocation. fold lat lon.
    cbn [map_current set_selectedLocation]. rewrite Hi.
    destruct location; (discriminate || reflexivity). }
  rewrite Hs. clear Hs s'.
  repeat split; try assumption.
  all: rewrite (settle_step _ _ AwaitLocationAQI)
    by (cbn; apply list_lookup_middle; reflexivity).
  all: cbn; unfold JS.or_else; rewrite H; cbn; try reflexivity; assumption.
Qed.


(** ** The map handle *)

Lemma usesCurrent_refl s : usesCurrent s s.
Proof. repeat split; now left. Qed.

Lemma live_alter s s' i f j :
  keepsAlive f -> maps s' = alter f i (maps s) -> live s' j <-> live s j.
Proof.
  intros Hf Hm. unfold live. rewrite Hm.
  destruct (decide (i = j)) as [->|Hne].
  - rewrite list_lookup_alter_eq. destruct (maps s !! j) as [m|]; simpl.
    + split; intros (m' & [= <-] & Hr).
      * exists m. split; [reflexivity|]. now rewrite Hf in Hr.
      * exists (f m). split; [reflexivity|]. now rewrite Hf.
    + split; intros (m' & [=] & _).
  - now rewrite list_lookup_alter_ne.
Qed.

Lemma usesCurrent_handleOk s s' :
  handleOk s -> usesCurrent s s' -> handleOk s'.
Proof.
  intros [Hc Hu] (Hcur & _ & [Hm|(i & f & Hi & Hf & Hm)]).
  - unfold handleOk, live in *. rewrite Hcur, Hm. now split.
  - unfold handleOk. rewrite Hcur. split.
    + intros k Hk. apply (live_alter s s' i f k Hf Hm). now apply Hc.
    + intros k Hk. apply Hu. now apply (live_alter s s' i f k Hf Hm).
Qed.

Lemma usesCurrent_cleanupOk s s' :
  cleanupOk s -> usesCurrent s s' -> cleanupOk s'.
Proof.
  intros Hc (Hcur & Hfl & _) i. rewrite Hcur, Hfl. apply Hc.
Qed.

Lemma usesCurrent_destroyedKept s s' :
  handleOk s -> usesCurrent s s' -> destroyedKept s s'.
Proof.
  intros [Hc _] (_ & _ & [Hm|(i & f & Hi & Hf & Hm)]) j m Hj Hr.
  - now rewrite Hm.
  - rewrite Hm. destruct (decide (i = j)) as [->|Hne].
    + destruct (Hc j Hi) as (m' & Hm' & Hr'). congruence.
    + now rewrite list_lookup_alter_ne.
Qed.

Lemma update_map_usesCurrent s i f :
  map_current s = Some i -> keepsAlive f -> usesCurrent s (update_map i f s).
Proof.
  intros Hi Hf. split; [reflexivity|]. split; [reflexivity|]. right.
  exists i, f. split; [assumption|]. split; [assumption|reflexivity].
Qed.

Lemma addReadings_keepsAlive points : forall m,
  Leaflet.removed (addReadings points m) = Leaflet.removed m.
Proof.
  induction points as [|point rest IH]; intros m; simpl; [reflexivity|].
  destruct (validReading point); [|apply IH].
  destruct (validLatLng (readingLatLng point)); [|reflexivity].
  now rewrite IH.
Qed.

Lemma reconcileEffect_usesCurrent s : usesCurrent s (reconcileEffect s).
Proof.
  unfold reconcileEffect.
  destruct (map_current s) as [i|] eqn:Hi; [|apply usesCurrent_refl].
  destruct (aqiData s) as [| | | | |[|point rest]|]; try apply usesCurrent_refl.
  apply update_map_usesCurrent; [assumption|].
  intros m. now rewrite addReadings_keepsAlive.
Qed.

Lemma handleSelectLocation_usesCurrent s location :
  usesCurrent s (handleSelectLocation location s).
Proof.
  unfold handleSelectLocation.
  set (lat := parseFloat _). set (lon := parseFloat _).
  cbn [map_current set_selectedLocation].
  assert (Hgo : usesCurrent s
            match
              match map_current s with
              | Some i =>
                  if validLatLng (lat, lon)
                  then Some (update_map i
                         (fun m => Leaflet.addTo (selectedMarker numberToString (lat, lon) location)
                                     (Leaflet.removeLayersWhere Leaflet.isMarker
                                        (Leaflet.setView (lat, lon) 12 m)))
                         (set_selectedLocation (Some (lat, lon)) s))
                  else None
              | None => Some (set_selectedLocation (Some (lat, lon)) s)
              end
            with
            | Some s2 => fetchAQIDataForLocation lat lon (set_searchResults (JS.Arr []) s2)
            | None => set_selectedLocation (Some (lat, lon)) s
            end).
  { destruct (map_current s) as [i|] eqn:Hi.
    - destruct (validLatLng (lat, lon)).
      + split; [reflexivity|]. split; [reflexivity|]. right.
        eexists i, _. split; [assumption|]. split; [|reflexivity].
        intros m. reflexivity.
      + split; [reflexivity|]. split; [reflexivity|]. now left.
    - split; [reflexivity|]. split; [reflexivity|]. now left. }
  destruct location; (apply usesCurrent_refl || exact Hgo).
Qed.

Lemma onTimeout_usesCurrent s : usesCurrent s (onTimeout s).
Proof.
  unfold onTimeout. destruct (timers s) as [|n]; [apply usesCurrent_refl|].
  cbn [map_current set_timers].
  destruct (map_current s) as [i|] eqn:Hi.
  - split; [reflexivity|]. split; [reflexivity|]. right.
    exists i, Leaflet.invalidateSize. split; [assumption|].
    split; [|reflexivity]. intros m. reflexivity.
  - split; [reflexivity|]. split; [reflexivity|]. now left.
Qed.

Lemma settle_usesCurrent p o s : usesCurrent s (settle p o s).
Proof.
  destruct p; simpl.
  - unfold handleSearch_settled.
    destruct o as [|[]]; repeat split; now left.
  - unfold fetchAQIData_settled, fetch_settled.
    destruct o as [|data]; [repeat split; now left|].
    destruct (JS.truthy data && JS.truthy (JS.get data "data"));
      repeat split; now left.
  - unfold fetchAQIDataForLocation_settled, fetch_settled.
    destruct o as [|data]; [repeat split; now left|].
    destruct (JS.truthy data && JS.truthy (JS.get data "data"));
      repeat split; now left.
Qed.


Lemma destroyedKept_refl s : destroyedKept s s.
Proof. intros j m Hj _. exact Hj. Qed.

Lemma destroyedKept_trans s1 s2 s3 :
  destroyedKept s1 s2 -> destroyedKept s2 s3 -> destroyedKept s1 s3.
Proof. intros H12 H23 j m Hj Hr. apply H23, Hr. now apply H12. Qed.

Lemma no_handle_no_live s j : handleOk s -> map_current s = None -> ~ live s j.
Proof. intros [_ Hu] Hn Hl. apply Hu in Hl. congruence. Qed.

(** The cleanup destroys the map the handle points to and clears the
    handle; no other map object is touched. *)
Lemma initCleanup_ok s :
  handleOk s ->
  handleOk (initCleanup s)
  /\ map_current (initCleanup s) = None
  /\ destroyedKept s (initCleanup s).
Proof.
  intros Hok. pose proof Hok as [Hc Hu]. unfold initCleanup.
  destruct (map_current s) as [i|] eqn:Hi.
  - split; [|split; [reflexivity|]].
    + split; [intros k [=]|].
      intros j (m & Hj & Hr). exfalso.
      unfold update_map, set_maps in Hj; cbn [maps set_map_current set_mapInitialized] in Hj.
      destruct (decide (i = j)) as [->|Hne].
      * rewrite list_lookup_alter_eq in Hj.
        destruct (maps s !! j) as [m0|]; [|discriminate].
        injection Hj as <-. discriminate.
      * rewrite list_lookup_alter_ne in Hj by assumption.
        assert (Hl : live s j) by (exists m; now split).
        apply Hu in Hl. congruence.
    + intros j m Hj Hr.
      unfold update_map, set_maps; cbn [maps set_map_current set_mapInitialized].
      destruct (decide (i = j)) as [->|Hne].
      * destruct (Hc j eq_refl) as (m' & Hm' & Hr'). congruence.
      * now rewrite list_lookup_alter_ne.
  - split; [assumption|]. split; [assumption|apply destroyedKept_refl].
Qed.

(** The first effect, run while the handle is null: it either leaves the
    maps alone or adds one fresh map and points the handle to it, and in
    that case it returns the cleanup function. *)
Lemma initEffect_ok c d s s' b :
  handleOk s -> map_current s = None ->
  initEffect c d s = (s', b) ->
  handleOk s'
  /\ (forall i, map_current s' = Some i -> b = true)
  /\ destroyedKept s s'.
Proof.
  intros Hok Hn. destruct d as [[sm tok] mi]. unfold initEffect.
  destruct (negb sm || negb sm || mi).
  { intros [= <- <-]. split; [assumption|].
    split; [congruence|apply destroyedKept_refl]. }
  assert (Hfresh : forall f (ms : list Leaflet.Map),
             keepsAlive f ->
             ms = alter f (length (maps s))
                    (maps s ++ [Leaflet.map defaultCenter defaultZoom [osmTiles]])%list ->
             (forall j, (exists m, ms !! j = Some m /\ Leaflet.removed m = false)
                        <-> j = length (maps s))
             /\ (forall j m, maps s !! j = Some m -> ms !! j = Some m)).
  { intros f ms Hf ->. split.
    - intros j. split.
      + intros (m & Hj & Hr).
        destruct (decide (length (maps s) = j)) as [|Hne]; [congruence|].
        rewrite list_lookup_alter_ne in Hj by assumption.
        destruct (decide (j < length (maps s))) as [Hlt|Hge].
        * rewrite lookup_app_l in Hj by assumption.
          exfalso. apply (no_handle_no_live s j Hok Hn). now exists m.
        * rewrite lookup_ge_None_2 in Hj; [discriminate|].
          rewrite length_app; simpl. lia.
      + intros ->. rewrite list_lookup_alter_eq, list_lookup_middle by reflexivity.
        simpl. eexists. split; [reflexivity|]. now rewrite Hf.
    - intros j m Hj. pose proof (lookup_lt_Some _ _ _ Hj) as Hlt.
      rewrite list_lookup_alter_ne by lia. now rewrite lookup_app_l. }
  destruct c; intros [= <- <-].
  - (* Constructed *)
    destruct (Hfresh (Leaflet.addZoomControl "topright") _ (fun m => eq_refl) eq_refl)
      as [Hlive Hold].
    split; [split|split; [reflexivity|]].
    + intros i [= <-]. apply Hlive. reflexivity.
    + intros j Hj. apply Hlive in Hj. now subst j.
    + intros j m Hj _. now apply Hold.
  - (* MapThrows *)
    assert (Hu : usesCurrent s (toast_error "Failed to initialize map" s))
      by (split; [reflexivity|]; split; [reflexivity|now left]).
    split; [exact (usesCurrent_handleOk _ _ Hok Hu)|].
    split; [|exact (usesCurrent_destroyedKept _ _ Hok Hu)].
    intros i Hi. cbn in Hi. congruence.
  - (* ZoomControlThrows *)
    destruct (Hfresh (fun m => m) _ (fun m => eq_refl)
                (eq_sym (list_alter_id _ _ _ (fun m => eq_refl))))
      as [Hlive Hold].
    split; [split|split; [reflexivity|]].
    + intros i [= <-]. apply Hlive. reflexivity.
    + intros j Hj. apply Hlive in Hj. now subst j.
    + intros j m Hj _. now apply Hold.
Qed.

(** Running the pending cleanup, if any, leaves the handle null. *)
Lemma pending_cleanup_ok s :
  handleOk s -> cleanupOk s ->
  let s0 := if initEffectCleanup s then initCleanup s else s in
  handleOk s0 /\ map_current s0 = None /\ destroyedKept s s0.
Proof.
  intros Hok Hcl. simpl. destruct (initEffectCleanup s) eqn:Hfl.
  - now apply initCleanup_ok.
  - split; [assumption|]. split; [|apply destroyedKept_refl].
    destruct (map_current s) as [i|] eqn:Hi; [|reflexivity].
    specialize (Hcl i Hi). congruence.
Qed.

Lemma render_ok c s :
  handleOk s -> cleanupOk s ->
  handleOk (render c s) /\ cleanupOk (render c s) /\ destroyedKept s (render c s).
Proof.
  intros Hok Hcl. unfold render. cbv zeta.
  destruct (mounted s); cbn [negb];
    [|split; [assumption|split; [assumption|apply destroyedKept_refl]]].
  assert (Hrec : forall s1 v,
             handleOk s1 -> cleanupOk s1 -> destroyedKept s s1 ->
             handleOk (if decide (aqiEffectDeps s1 = Some v) then s1
                       else set_aqiEffectDeps (Some v) (reconcileEffect s1))
             /\ cleanupOk (if decide (aqiEffectDeps s1 = Some v) then s1
                           else set_aqiEffectDeps (Some v) (reconcileEffect s1))
             /\ destroyedKept s
                  (if decide (aqiEffectDeps s1 = Some v) then s1
                   else set_aqiEffectDeps (Some v) (reconcileEffect s1))).
  { intros s1 v Hok1 Hcl1 Hk1.
    destruct (decide (aqiEffectDeps s1 = Some v));
      [split; [assumption|split; assumption]|].
    pose proof (reconcileEffect_usesCurrent s1) as Hu.
    split; [|split].
    - exact (usesCurrent_handleOk _ _ Hok1 Hu).
    - exact (usesCurrent_cleanupOk _ _ Hcl1 Hu).
    - eapply destroyedKept_trans; [exact Hk1|].
      exact (usesCurrent_destroyedKept _ _ Hok1 Hu). }
  destruct (decide (initEffectDeps s = _)).
  { apply (Hrec s (aqiVersion s)); [assumption|assumption|apply destroyedKept_refl]. }
  destruct (pending_cleanup_ok s Hok Hcl) as (Hok0 & Hn0 & Hk0).
  destruct (initEffect c (showMap s, iqairToken s, mapInitialized s)
              (if initEffectCleanup s then initCleanup s else s))
    as [s'' b] eqn:He.
  destruct (initEffect_ok c _ _ s'' b Hok0 Hn0 He) as (Hok2 & Hb & Hk2).
  apply (Hrec (set_initEffectCleanup b
                 (set_initEffectDeps
                    (Some (showMap s, iqairToken s, mapInitialized s)) s''))
              (aqiVersion s)).
  - exact Hok2.
  - intros i Hi. cbn in Hi |- *. now apply (Hb i).
  - eapply destroyedKept_trans; [exact Hk0|]. exact Hk2.
Qed.

Lemma unmount_ok s :
  handleOk s -> cleanupOk s ->
  handleOk (unmount s) /\ cleanupOk (unmount s) /\ destroyedKept s (unmount s).
Proof.
  intros Hok Hcl. unfold unmount.
  destruct (mounted s); simpl; [|now split; [|split; [|apply destroyedKept_refl]]].
  destruct (pending_cleanup_ok s Hok Hcl) as (Hok0 & Hn0 & Hk0).
  split; [exact Hok0|]. split; [|exact Hk0].
  intros i Hi. cbn in Hi. congruence.
Qed.

(** Every transition keeps the handle and the maps in agreement and leaves
    the destroyed maps as they are. *)
Lemma step_ok e s :
  handleOk s -> cleanupOk s ->
  handleOk (step e s) /\ cleanupOk (step e s) /\ destroyedKept s (step e s).
Proof.
  intros Hok Hcl.
  assert (Huse : forall s', usesCurrent s s' ->
            handleOk s' /\ cleanupOk s' /\ destroyedKept s s').
  { intros s' Hu. split; [|split].
    - exact (usesCurrent_handleOk _ _ Hok Hu).
    - exact (usesCurrent_cleanupOk _ _ Hcl Hu).
    - exact (usesCurrent_destroyedKept _ _ Hok Hu). }
  destruct e; simpl.
  - apply Huse. destruct (mounted s && negb (showMap s));
      [|apply usesCurrent_refl]. split; [reflexivity|]. split; [reflexivity|now left].
  - apply Huse. destruct (mounted s && negb (showMap s));
      [|apply usesCurrent_refl]. unfold handleSaveToken.
    destruct (JS.blank (iqairToken s));
      (split; [reflexivity|]; split; [reflexivity|now left]).
  - apply Huse. destruct (mounted s && showMap s);
      [|apply usesCurrent_refl]. unfold handleSearch.
    destruct (negb (JS.truthy (JS.Str query)));
      (split; [reflexivity|]; split; [reflexivity|now left]).
  - apply Huse. destruct (mounted s && showMap s);
      [|apply usesCurrent_refl]. apply handleSelectLocation_usesCurrent.
  - apply Huse. destruct (inflight s !! i) as [p|]; [|apply usesCurrent_refl].
    destruct (settle_usesCurrent p o (set_inflight (delete i (inflight s)) s))
      as (H1 & H2 & H3).
    split; [exact H1|]. split; [exact H2|exact H3].
  - apply Huse, onTimeout_usesCurrent.
  - now apply render_ok.
  - now apply unmount_ok.
Qed.

Lemma init_ok stored : handleOk (init stored) /\ cleanupOk (init stored).
Proof.
  split; [split|].
  - intros i [=].
  - intros j (m & Hj & _). discriminate.
  - intros i [=].
Qed.

Lemma reachable_ok s : reachable s -> handleOk s /\ cleanupOk s.
Proof.
  induction 1 as [stored|e s _ [Hok Hcl]]; [apply init_ok|].
  destruct (step_ok e s Hok Hcl) as (H1 & H2 & _). now split.
Qed.

Lemma reachable_run es : forall s, reachable s -> reachable (run es s).
Proof.
  induction es as [|e es IH]; intros s Hs; [exact Hs|].
  apply IH. now constructor.
Qed.

(** Whenever the first effect runs again while the handle is set and
    [mapInitialized] holds, whatever dependency changed, the map is
    destroyed, the handle cleared and the flag reset for the next render. *)
Lemma rerun_destroys_map c s i m :
  mounted s = true ->
  map_current s = Some i ->
  maps s !! i = Some m ->
  initEffectCleanup s = true ->
  mapInitialized s = true ->
  initEffectDeps s <> Some (showMap s, iqairToken s, mapInitialized s) ->
  map_current (render c s) = None
  /\ mapInitialized (render c s) = false
  /\ maps (render c s) !! i = Some (Leaflet.remove m).
Proof.
  intros Hmo Hi Hm Hcl Hflag Hdeps. unfold render. cbv zeta.
  rewrite Hmo; cbn [negb].
  destruct (decide (initEffectDeps s = _)) as [|_]; [contradiction|].
  rewrite Hcl. unfold initEffect. rewrite Hflag, !orb_true_r.
  unfold initCleanup. rewrite Hi.
  set (s1 := set_initEffectCleanup _ _).
  assert (H1 : map_current s1 = None /\ mapInitialized s1 = false
               /\ maps s1 !! i = Some (Leaflet.remove m)).
  { subst s1. cbn. rewrite list_lookup_alter_eq, Hm. now repeat split. }
  destruct H1 as (Hn & Hf & Hr).
  destruct (decide (aqiEffectDeps s1 = _)); [now repeat split|].
  unfold reconcileEffect. rewrite Hn. cbn. now repeat split.
Qed.

(** At most one map object is alive in any state the component reaches. *)
Lemma one_live_map s j k : reachable s -> live s j -> live s k -> j = k.
Proof.
  intros Hs Hj Hk. destruct (reachable_ok s Hs) as [[_ Hu] _].
  apply Hu in Hj, Hk. congruence.
Qed.

(** C4: once a map has been destroyed (its handle was cleared with it),
    nothing the component does afterwards changes that map object: neither
    a fetch that was in flight and settles later, with the render that
    follows it, nor any other event adds a layer to it or removes one. *)
Theorem destroyed_map_never_mutated s es j m :
  reachable s ->
  maps s !! j = Some m ->
  Leaflet.removed m = true ->
  maps (run es s) !! j = Some m.
Proof.
  revert s. induction es as [|e es IH]; intros s Hs Hj Hr; [exact Hj|].
  destruct (reachable_ok s Hs) as [Hok Hcl].
  destruct (step_ok e s Hok Hcl) as (_ & _ & Hk).
  apply IH; [now constructor| |exact Hr]. now apply Hk.
Qed.

End Properties.

(** * The component on concrete runs *)

Example parseDecimal_paris :
  parseDecimal "48.8566" = 48.8566%float /\ parseDecimal "2.3522" = 2.3522%float.
Proof. split; evaluate. Qed.

Example station1_marker :
  readingMarker aqiColor showNumber station1
  = Leaflet.CircleMarker (48.85, 2.35)%float
      {| Leaflet.radius := 8; Leaflet.fillColor := "#00e400";
         Leaflet.color := "#fff"; Leaflet.weight := 1;
         Leaflet.opacity := 1; Leaflet.fillOpacity := 0.8 |}
      (Some "<b>AQI: 42</b><br>Paris Centre").
Proof. evaluate. Qed.

Example unlocked_state :
  map_current unlocked = Some 0
  /\ length (maps unlocked) = 1
  /\ mapInitialized unlocked = true
  /\ inflight unlocked = [AwaitInitialAQI]
  /\ network unlocked = [usaBounds "k"].
Proof. repeat (split; [evaluate|]). evaluate. Qed.

(** C1: the initial fetch is answered with one well-formed reading.  When
    the answer arrives while the map is alive, the render that follows
    first runs the cleanup of the first effect, so the second effect finds
    the handle null and draws nothing; the render after it builds a new
    map and does not run the second effect again: the reconciliation for
    the current list of readings has completed, a map is alive, and it
    shows no marker for the reading.  When the answer arrives one render
    later, the marker is drawn on the map built by the next render, is
    lost with that map in the render after it, and the map built then
    shows none. *)
Theorem arrived_readings_not_shown :
  (aqiData answeredEarly = JS.Arr [station1]
   /\ validReading station1 = true
   /\ map_current answeredEarly = Some 0)
  /\ (aqiData answeredEarly1 = JS.Arr [station1]
      /\ aqiEffectDeps answeredEarly1 = Some (aqiVersion answeredEarly1)
      /\ map_current answeredEarly1 = None
      /\ shownReadings answeredEarly1 = [])
  /\ (aqiData answeredEarly2 = JS.Arr [station1]
      /\ aqiEffectDeps answeredEarly2 = Some (aqiVersion answeredEarly2)
      /\ map_current answeredEarly2 = Some 1
      /\ live answeredEarly2 1
      /\ shownReadings answeredEarly2 = [])
  /\ (map_current answeredLate = None
      /\ shownReadings answeredLate1 = [readingMarker aqiColor showNumber station1]
      /\ shownReadings answeredLate2 = []
      /\ aqiData answeredLate3 = JS.Arr [station1]
      /\ aqiEffectDeps answeredLate3 = Some (aqiVersion answeredLate3)
      /\ map_current answeredLate3 = Some 2
      /\ live answeredLate3 2
      /\ shownReadings answeredLate3 = []).
Proof.
  split; [repeat (split; [evaluate|]); evaluate|].
  split; [repeat (split; [evaluate|]); evaluate|].
  split.
  - repeat (split; [evaluate|]). split; [|evaluate].
    eexists. split; evaluate.
  - repeat (split; [evaluate|]). split; [|evaluate].
    eexists. split; evaluate.
Qed.

(** C2: after the map has been constructed, the render caused by
    [setMapInitialized(true)] runs the first effect again while the map
    exists, [showMap] still holds and the token is unchanged.  That run is not
    without effect: its cleanup destroys the map and clears the handle, and
    the render after it constructs a second map. *)
Theorem initialization_retrigger_recreates_map :
  (map_current unlocked = Some 0 /\ live unlocked 0
   /\ showMap unlocked = true /\ mapInitialized unlocked = true)
  /\ (let s1 := exec [Render Constructed] unlocked in
      showMap s1 = true /\ iqairToken s1 = iqairToken unlocked
      /\ map_current s1 = None
      /\ (Leaflet.removed <$> maps s1 !! 0) = Some true)
  /\ (let s2 := exec [Render Constructed; Render Constructed] unlocked in
      showMap s2 = true /\ iqairToken s2 = iqairToken unlocked
      /\ map_current s2 = Some 1 /\ live s2 1 /\ length (maps s2) = 2).
Proof.
  split; [|split].
  - split; [evaluate|]. split; [|split; evaluate].
    eexists. split; evaluate.
  - cbv zeta. split; [evaluate|]. split; [evaluate|]. split; evaluate.
  - cbv zeta. split; [evaluate|]. split; [evaluate|].
    split; [evaluate|]. split; [|evaluate].
    eexists. split; evaluate.
Qed.

(** C8: a search brought the candidate Paris; the next search is
    rejected.  The error notification is raised, and the candidate list is
    not emptied: it still holds Paris. *)
Theorem failed_search_keeps_candidates :
  searchResults searchedTwice = JS.Arr [paris]
  /\ toasts searchedTwice = [(ErrorToast, "Error searching for locations")]
  /\ aqiData searchedTwice = aqiData unlocked
  /\ maps searchedTwice = maps unlocked.
Proof. split; [evaluate|]. split; [evaluate|]. split; evaluate. Qed.

(** C9, counterexample: a query of three spaces is blank, and it is sent
    to the geocoder. *)
Lemma blank_query_is_sent :
  JS.blank "   " = true
  /\ network (handleSearch "   " (init None)) = [NominatimSearch "   "]
  /\ ~ (network (handleSearch "   " (init None)) = network (init None)).
Proof. split; [evaluate|]. split; [evaluate|]. vm_compute. discriminate. Qed.


Lemma search_candidates_witness :
  "Paris" <> EmptyString
  /\ network (handleSearch "Paris" unlocked)
     = (network unlocked ++ [NominatimSearch "Paris"])%list.
Proof.
  split; [discriminate|].
  apply (proj2 (search_candidates unlocked "Paris")). discriminate.
Defined.


Lemma destroyed_map_never_mutated_witness :
  let s := exec [Render Constructed] unlocked in
  let m := Leaflet.remove
             (Leaflet.addZoomControl "topright"
                (Leaflet.map defaultCenter defaultZoom [osmTiles])) in
  maps s !! 0 = Some m
  /\ Leaflet.removed m = true
  /\ inflight s = [AwaitInitialAQI]
  /\ maps (exec [Settle 0 (Resolved (JS.Obj [("data", JS.Arr [station1])]));
                 Render Constructed] s) !! 0 = Some m.
Proof.
  cbv zeta. split; [evaluate|]. split; [evaluate|]. split; [evaluate|].
  apply (destroyed_map_never_mutated aqiColor parseDecimal showNumber).
  - apply reachable_run, reachable_run, reachable_init.
  - evaluate.
  - evaluate.
Defined.

Lemma select_location_live_witness :
  map_current unlocked = Some 0
  /\ nullish paris = false
  /\ validLatLng (48.8566%float, 2.3522%float) = true
  /\ network (handleSelectLocation parseDecimal showNumber paris unlocked)
     = (network unlocked
        ++ [WaqiBounds (48.8566 - offset) (2.3522 - offset)
                       (48.8566 + offset) (2.3522 + offset) "k"])%list.
Proof.
  split; [evaluate|]. split; [evaluate|]. split; [evaluate|].
  refine (proj1 (proj2 (proj2 (proj2
    (select_location_live parseDecimal showNumber unlocked 0
       (Leaflet.addZoomControl "topright"
          (Leaflet.map defaultCenter defaultZoom [osmTiles]))
       paris _ _ _ _))))); evaluate.
Defined.

Lemma malformed_reading_excluded_witness :
  malformed noIndex
  /\ (exists m,
        maps (reconcileEffect aqiColor showNumber mixedBatch) !! 0 = Some m
        /\ List.filter Leaflet.isCircleMarker (Leaflet.layers m)
           = [readingMarker aqiColor showNumber station1;
              readingMarker aqiColor showNumber station2]).
Proof.
  assert (Hbad : malformed noIndex) by (right; right; discriminate).
  split; [exact Hbad|].
  eexists. split.
  - refine (proj2 (proj2
      (malformed_reading_excluded aqiColor showNumber mixedBatch 0
         (Leaflet.addZoomControl "topright"
            (Leaflet.map defaultCenter defaultZoom [osmTiles]))
         [station1] noIndex [station2] _ _ _ Hbad)) _); evaluate.
  - evaluate.
Defined.

Lemma select_location_without_map_witness :
  map_current (init None) = None
  /\ nullish paris = false
  /\ inflight (handleSelectLocation parseDecimal showNumber paris (init None))
     = [AwaitLocationAQI].
Proof.
  split; [evaluate|]. split; [evaluate|].
  refine (proj1 (proj2 (proj2 (proj2 (proj2 (proj2
    (select_location_without_map aqiColor parseDecimal showNumber (init None) paris _ _)))))));
    evaluate.
Defined.

(** * Further properties of the component *)

Section Coverage.

Variable getAQIColor : float -> string.
Variable parseFloat : string -> float.
Variable numberToString : float -> string.

Local Abbreviation addReadings := (addReadings getAQIColor numberToString).
Local Abbreviation readingMarker := (readingMarker getAQIColor numberToString).
Local Abbreviation reconcileEffect := (reconcileEffect getAQIColor numberToString).
Local Abbreviation handleSelectLocation :=
  (handleSelectLocation parseFloat numberToString).
Local Abbreviation render := (render getAQIColor numberToString).
Local Abbreviation step := (step getAQIColor parseFloat numberToString).
Local Abbreviation run := (run getAQIColor parseFloat numberToString).
Local Abbreviation reachable := (reachable getAQIColor parseFloat numberToString).

(** ** Readings *)

(** The test of the loop passes exactly on an object whose [lat], [lon]
    and [aqi] are numbers. *)
Lemma validReading_numeric point :
  validReading point = true <-> numericReading point.
Proof.
  unfold validReading, numericReading. split.
  - intros H. repeat (apply andb_true_iff in H as [H ?]).
    destruct point as [| | | | | |props]; try discriminate.
    simpl in *.
    destruct (JS.assoc "lat" props) as [| | |lat| | |] eqn:Hlat; try discriminate.
    destruct (JS.assoc "lon" props) as [| | |lon| | |] eqn:Hlon; try discriminate.
    destruct (JS.assoc "aqi" props) as [| | |aqi| | |] eqn:Haqi; try discriminate.
    now exists props, lat, lon, aqi.
  - intros (props & lat & lon & aqi & -> & Hlat & Hlon & Haqi).
    simpl. now rewrite Hlat, Hlon, Haqi.
Qed.

(** The reading markers on the live map once the second effect has run on
    a list with at least one reading (no coordinate being NaN). *)
Lemma shownReadings_reconciled s i m points :
  map_current s = Some i ->
  maps s !! i = Some m ->
  aqiData s = JS.Arr points ->
  points <> [] ->
  coordinatesOk points = true ->
  shownReadings (reconcileEffect s)
  = List.map readingMarker (List.filter validReading points).
Proof.
  intros Hi Hm Hd Hne Hok. destruct points as [|p rest]; [contradiction|].
  rewrite (reconcileEffect_live _ _ s i p rest Hi Hd).
  unfold shownReadings, update_map. cbn [map_current maps set_maps].
  rewrite Hi, list_lookup_alter_eq, Hm. cbn [fmap option_fmap option_map].
  rewrite addReadings_layers by assumption.
  unfold Leaflet.removeLayersWhere, Leaflet.withLayers; cbn [Leaflet.layers].
  rewrite List.filter_app, readingMarkers_are_circles, no_circle_left.
  reflexivity.
Qed.

(** X1: A reading is drawn exactly when it is an object whose [lat], [lon] and
    [aqi] are numbers: a numeric string, [null] or a missing key in any of
    the three keeps it off the map.  On a live map and a list of readings
    (no coordinate being NaN), the second effect leaves the marker of
    such a reading between the markers of the readings before it and
    those of the readings after it; of any other reading it leaves no
    marker, the markers of the other readings being the same. *)
Theorem reading_drawn_iff_numeric s i m before point after :
  map_current s = Some i ->
  maps s !! i = Some m ->
  aqiData s = JS.Arr (before ++ point :: after) ->
  coordinatesOk (before ++ point :: after) = true ->
  let drawn points := List.map readingMarker (List.filter validReading points) in
  (numericReading point ->
   shownReadings (reconcileEffect s)
   = (drawn before ++ readingMarker point :: drawn after)%list)
  /\ (~ numericReading point ->
      shownReadings (reconcileEffect s) = (drawn before ++ drawn after)%list).
Proof.
  intros Hi Hm Hd Hok drawn.
  assert (Hne : (before ++ point :: after)%list <> []).
  { intros E. symmetry in E. now apply app_cons_not_nil in E. }
  rewrite (shownReadings_reconciled s i m _ Hi Hm Hd Hne Hok).
  subst drawn. cbv beta. rewrite List.filter_app, List.map_app. cbn [List.filter].
  split; intros Hp.
  - apply validReading_numeric in Hp. now rewrite Hp.
  - destruct (validReading point) eqn:Hv; [|reflexivity].
    apply validReading_numeric in Hv. contradiction.
Qed.

(** X2: The popup of a reading without a usable station name ([station]
    missing or [null], [name] missing, empty or otherwise falsy) ends in
    the placeholder. *)
Theorem unknown_station_label point :
  JS.truthy (JS.get_opt (JS.get point "station") "name") = false ->
  readingMarker point
  = Leaflet.CircleMarker (readingLatLng point)
      {| Leaflet.radius := 8;
         Leaflet.fillColor := getAQIColor (number_of (JS.get point "aqi"));
         Leaflet.color := "#fff"; Leaflet.weight := 1;
         Leaflet.opacity := 1; Leaflet.fillOpacity := 0.8 |}
      (Some ("<b>AQI: " ++ ToString numberToString (JS.get point "aqi")
             ++ "</b><br>Unknown Station")).
Proof.
  intros H. unfold readingMarker, JS.or_else. now rewrite H.
Qed.

(** ** Settled requests *)

Lemma settled_inflight p o s : inflight (settle p o s) = inflight s.
Proof.
  destruct p; simpl.
  - unfold handleSearch_settled. now destruct o as [|[]].
  - unfold fetchAQIData_settled, fetch_settled. destruct o as [|data]; [reflexivity|].
    now destruct (JS.truthy data && JS.truthy (JS.get data "data")).
  - unfold fetchAQIDataForLocation_settled, fetch_settled.
    destruct o as [|data]; [reflexivity|].
    now destruct (JS.truthy data && JS.truthy (JS.get data "data")).
Qed.

(** The readings a settled fetch leaves depend on its outcome only. *)
Lemma fetched_readings p q o s s' :
  isFetch p = true -> isFetch q = true ->
  aqiData (settle p o s) = aqiData (settle q o s').
Proof.
  intros Hp Hq. destruct p, q; try discriminate; simpl;
    unfold fetchAQIData_settled, fetchAQIDataForLocation_settled, fetch_settled;
    (destruct o as [|data]; [reflexivity|];
     now destruct (JS.truthy data && JS.truthy (JS.get data "data"))).
Qed.

(** X4: No request is cancelled and no answer is checked against the request
    it belongs to: when two fetches are in flight and the one issued first
    settles last, its outcome decides the list of readings, as if the later
    request had never been answered. *)
Theorem earlier_fetch_settling_last_wins s i j p q oi oj :
  i < j ->
  inflight s !! i = Some p ->
  inflight s !! j = Some q ->
  isFetch p = true ->
  isFetch q = true ->
  aqiData (step (Settle i oi) (step (Settle j oj) s))
  = aqiData (step (Settle i oi) s).
Proof.
  intros Hij Hi Hj Hp Hq.
  rewrite (settle_step getAQIColor parseFloat numberToString s j q oj Hj).
  rewrite (settle_step getAQIColor parseFloat numberToString s i p oi Hi).
  rewrite (settle_step getAQIColor parseFloat numberToString _ i p oi).
  - now apply fetched_readings.
  - rewrite settled_inflight. cbn [inflight set_inflight].
    now rewrite list_lookup_delete_lt.
Qed.

(** X5: A response whose [data.data] is truthy but not an array (an error
    string of the service, say) becomes the list of readings as it is and
    raises no notification; the effect that draws the readings then leaves
    every map as it was. *)
Theorem nonarray_payload_kept s i p response data :
  inflight s !! i = Some p ->
  isFetch p = true ->
  JS.truthy response = true ->
  JS.get response "data" = data ->
  JS.truthy data = true ->
  (forall elems, data <> JS.Arr elems) ->
  let s' := step (Settle i (Resolved response)) s in
  aqiData s' = data
  /\ toasts s' = toasts s
  /\ reconcileEffect s' = s'.
Proof.
  intros Hi Hp Hr Hd Ht Hna s'. subst s'.
  rewrite (settle_step getAQIColor parseFloat numberToString s i p _ Hi).
  assert (Hs : settle p (Resolved response) (set_inflight (delete i (inflight s)) s)
               = setAqiData data (set_inflight (delete i (inflight s)) s)).
  { destruct p; [discriminate| |]; simpl;
      unfold fetchAQIData_settled, fetchAQIDataForLocation_settled, fetch_settled,
        JS.or_else; now rewrite Hr, Hd, Ht. }
  rewrite Hs. split; [reflexivity|]. split; [reflexivity|].
  unfold reconcileEffect. cbn [map_current aqiData setAqiData set_inflight].
  destruct (map_current s); [|reflexivity].
  destruct data as [| | | | |elems|]; try reflexivity.
  now destruct (Hna elems).
Qed.

(** X6: A search answered with a payload that has no [slice] method ([null], a
    number, an object, ...) is handled like a rejected one: the error
    notification is raised and the candidates, the readings and the maps
    stay as they were. *)
Theorem unsliceable_search_response s i data :
  inflight s !! i = Some AwaitSearch ->
  unsliceable data = true ->
  let s' := step (Settle i (Resolved data)) s in
  searchResults s' = searchResults s
  /\ toasts s' = (toasts s ++ [(ErrorToast, "Error searching for locations")])%list
  /\ aqiData s' = aqiData s
  /\ maps s' = maps s.
Proof.
  intros Hi Hu s'. subst s'.
  rewrite (settle_step getAQIColor parseFloat numberToString s i _ _ Hi).
  destruct data; try discriminate; now repeat split.
Qed.

(** ** What the effects leave alone *)

Lemma reconcileEffect_shape s :
  exists ms, reconcileEffect s = set_maps ms s /\ (map_current s = None -> ms = maps s).
Proof.
  unfold reconcileEffect.
  destruct (map_current s) as [i|].
  - destruct (aqiData s) as [| | | | |[|point rest]|];
      try (exists (maps s); split; [now destruct s|discriminate]).
    eexists. split; [reflexivity|discriminate].
  - exists (maps s). split; [now destruct s|reflexivity].
Qed.

Lemma initCleanup_session s :
  showMap (initCleanup s) = showMap s
  /\ iqairToken (initCleanup s) = iqairToken s
  /\ localStorage (initCleanup s) = localStorage s
  /\ network (initCleanup s) = network s
  /\ inflight (initCleanup s) = inflight s
  /\ searchResults (initCleanup s) = searchResults s
  /\ aqiData (initCleanup s) = aqiData s
  /\ aqiVersion (initCleanup s) = aqiVersion s
  /\ mounted (initCleanup s) = mounted s.
Proof. unfold initCleanup. destruct (map_current s); now repeat split. Qed.

Lemma initEffect_session c d s s' b :
  initEffect c d s = (s', b) ->
  showMap s' = showMap s
  /\ iqairToken s' = iqairToken s
  /\ localStorage s' = localStorage s
  /\ searchResults s' = searchResults s
  /\ aqiData s' = aqiData s
  /\ aqiVersion s' = aqiVersion s
  /\ mounted s' = mounted s
  /\ (network s' = network s
      \/ (fst (fst d) = true
          /\ network s' = (network s ++ [usaBounds (snd (fst d))])%list)).
Proof.
  destruct d as [[sm tok] mi]. unfold initEffect.
  destruct (negb sm || negb sm || mi) eqn:Hg.
  { intros [= <- <-]. repeat split. now left. }
  destruct sm; [|discriminate].
  destruct c; intros [= <- <-]; repeat split; (now left) || (right; now split).
Qed.

Lemma render_session c s :
  showMap (render c s) = showMap s
  /\ iqairToken (render c s) = iqairToken s
  /\ localStorage (render c s) = localStorage s
  /\ searchResults (render c s) = searchResults s
  /\ aqiData (render c s) = aqiData s
  /\ aqiVersion (render c s) = aqiVersion s
  /\ mounted (render c s) = mounted s
  /\ (network (render c s) = network s
      \/ (showMap s = true
          /\ network (render c s) = (network s ++ [usaBounds (iqairToken s)])%list)).
Proof.
  unfold render. cbv zeta.
  destruct (mounted s) eqn:Hmo; cbn [negb]; [|repeat split; auto].
  assert (Hrec : forall s1 v,
    let s2 := if decide (aqiEffectDeps s1 = Some v) then s1
              else set_aqiEffectDeps (Some v) (reconcileEffect s1) in
    showMap s2 = showMap s1 /\ iqairToken s2 = iqairToken s1
    /\ localStorage s2 = localStorage s1 /\ searchResults s2 = searchResults s1
    /\ aqiData s2 = aqiData s1 /\ aqiVersion s2 = aqiVersion s1
    /\ mounted s2 = mounted s1 /\ network s2 = network s1).
  { intros s1 v. cbv zeta. destruct (decide (aqiEffectDeps s1 = Some v)); [now repeat split|].
    destruct (reconcileEffect_shape s1) as (ms & -> & _). now repeat split. }
  destruct (decide (initEffectDeps s = _)) as [|_].
  { destruct (Hrec s (aqiVersion s)) as (H1 & H2 & H3 & H4 & H5 & H6 & H7 & H8).
    cbv zeta in *. repeat split; first [assumption|congruence|now left]. }
  destruct (initEffect c (showMap s, iqairToken s, mapInitialized s)
              (if initEffectCleanup s then initCleanup s else s))
    as [s'' b] eqn:He.
  apply initEffect_session in He.
  cbn [fst snd] in He.
  assert (Hc : let s0 := if initEffectCleanup s then initCleanup s else s in
               showMap s0 = showMap s /\ iqairToken s0 = iqairToken s
               /\ localStorage s0 = localStorage s /\ network s0 = network s
               /\ searchResults s0 = searchResults s /\ aqiData s0 = aqiData s
               /\ aqiVersion s0 = aqiVersion s /\ mounted s0 = mounted s).
  { cbv zeta. destruct (initEffectCleanup s); [|now repeat split].
    destruct (initCleanup_session s) as (?&?&?&?&?&?&?&?&?). now repeat split. }
  cbv zeta in Hc.
  destruct Hc as (C1 & C2 & C3 & C4 & C5 & C6 & C7 & C8).
  destruct He as (E1 & E2 & E3 & E4 & E5 & E6 & E7 & E8).
  cbv beta iota zeta.
  match goal with |- context [reconcileEffect ?x] => set (s1 := x) in * end.
  destruct (Hrec s1 (aqiVersion s)) as (H1 & H2 & H3 & H4 & H5 & H6 & H7 & H8).
  cbv zeta in *.
  rewrite H1, H2, H3, H4, H5, H6, H7, H8. subst s1.
  cbn [showMap iqairToken localStorage searchResults aqiData
       aqiVersion mounted network set_initEffectCleanup set_initEffectDeps].
  rewrite E1, E2, E3, E4, E5, E6, E7, C1, C2, C3, C5, C6, C7, C8.
  repeat split; try reflexivity; try assumption.
  destruct E8 as [E8|[Hs E8]]; rewrite E8, C4; [now left|right; now split].
Qed.

(** ** The session: token form, then map *)

Lemma handleSelectLocation_session s location :
  showMap (handleSelectLocation location s) = showMap s
  /\ iqairToken (handleSelectLocation location s) = iqairToken s
  /\ localStorage (handleSelectLocation location s) = localStorage s
  /\ (network (handleSelectLocation location s) = network s
      \/ exists south west north east,
           network (handleSelectLocation location s)
           = (network s ++ [WaqiBounds south west north east (iqairToken s)])%list).
Proof.
  unfold handleSelectLocation.
  destruct location; try (repeat split; now left);
    cbn [map_current set_selectedLocation];
    (destruct (map_current s); [destruct (validLatLng _)|]);
    repeat split; try (now left); right; now eexists _, _, _, _.
Qed.

Lemma settle_session p o s :
  showMap (settle p o s) = showMap s
  /\ iqairToken (settle p o s) = iqairToken s
  /\ localStorage (settle p o s) = localStorage s
  /\ network (settle p o s) = network s.
Proof.
  destruct p; simpl.
  - unfold handleSearch_settled. destruct o as [|[]]; now repeat split.
  - unfold fetchAQIData_settled, fetch_settled. destruct o as [|data]; [now repeat split|].
    destruct (JS.truthy data && JS.truthy (JS.get data "data")); now repeat split.
  - unfold fetchAQIDataForLocation_settled, fetch_settled.
    destruct o as [|data]; [now repeat split|].
    destruct (JS.truthy data && JS.truthy (JS.get data "data")); now repeat split.
Qed.

Lemma onTimeout_session s :
  showMap (onTimeout s) = showMap s
  /\ iqairToken (onTimeout s) = iqairToken s
  /\ localStorage (onTimeout s) = localStorage s
  /\ network (onTimeout s) = network s.
Proof.
  unfold onTimeout. destruct (timers s); [now repeat split|].
  cbn [map_current set_timers]. destruct (map_current s); now repeat split.
Qed.

Lemma unmount_session s :
  showMap (unmount s) = showMap s
  /\ iqairToken (unmount s) = iqairToken s
  /\ localStorage (unmount s) = localStorage s
  /\ network (unmount s) = network s.
Proof.
  unfold unmount. destruct (mounted s); [|now repeat split]. cbn [negb].
  destruct (initEffectCleanup s); [|now repeat split].
  destruct (initCleanup_session s) as (?&?&?&?&_). now repeat split.
Qed.

Lemma render_pristine c s :
  showMap s = false -> pristine s -> pristine (render c s).
Proof.
  intros Hs (Hm & Hc & Hn & Hi & Ha & Hr & Hl & Hf & Ht & Hcl & Hd).
  unfold render. cbv zeta.
  destruct (mounted s); cbn [negb]; [|now repeat split].
  assert (Hrec : forall s1 v,
             map_current s1 = None -> pristine s1 ->
             pristine (if decide (aqiEffectDeps s1 = Some v) then s1
                       else set_aqiEffectDeps (Some v) (reconcileEffect s1))).
  { intros s1 v Hc1 Hp1. destruct (decide (aqiEffectDeps s1 = Some v)); [assumption|].
    unfold reconcileEffect. rewrite Hc1. exact Hp1. }
  destruct (decide (initEffectDeps s = _)) as [|_].
  { apply Hrec; [assumption|now repeat split]. }
  rewrite Hcl. unfold initEffect. rewrite Hs. cbn [negb orb].
  apply Hrec; [assumption|].
  repeat split; try assumption. cbn. now intros d [= <-].
Qed.

(** The session invariant is kept by every transition. *)
Lemma step_sessionOk e s : sessionOk s -> sessionOk (step e s).
Proof.
  unfold sessionOk. intros H.
  destruct e; simpl.
  - (* ChangeToken *)
    destruct (mounted s); [|exact H].
    destruct (showMap s) eqn:Hs; cbn [negb andb]; [now rewrite Hs|].
    cbn [showMap set_iqairToken]. rewrite Hs. exact H.
  - (* SaveToken *)
    destruct (mounted s); [|exact H].
    destruct (showMap s) eqn:Hs; cbn [negb andb]; [now rewrite Hs|].
    unfold handleSaveToken. destruct (JS.blank (iqairToken s)) eqn:Hb.
    + cbn [showMap toast_error set_toasts]. rewrite Hs. exact H.
    + cbn [showMap set_showMap]. destruct H as (_ & _ & Hn & _).
      split; [exact Hb|]. split; [reflexivity|].
      cbn [network set_showMap set_localStorage]. rewrite Hn. constructor.
  - (* Search *)
    destruct (mounted s); [|exact H].
    destruct (showMap s) eqn:Hs; cbn [andb]; [|now rewrite Hs].
    unfold handleSearch. destruct (negb (JS.truthy (JS.Str query))).
    + cbn [showMap set_searchResults]. rewrite Hs. exact H.
    + cbn [showMap axios_get set_inflight set_network]. rewrite Hs.
      destruct H as (Hb & Hl & Hn). split; [exact Hb|]. split; [exact Hl|].
      cbn. apply Forall_app. split; [exact Hn|]. now repeat constructor.
  - (* Select *)
    destruct (mounted s); [|exact H].
    destruct (showMap s) eqn:Hs; cbn [andb]; [|now rewrite Hs].
    destruct (handleSelectLocation_session s location) as (H1 & H2 & H3 & H4).
    rewrite H1, Hs. destruct H as (Hb & Hl & Hn). unfold tokenSaved.
    rewrite H2, H3. split; [exact Hb|]. split; [exact Hl|].
    destruct H4 as [->|(so & we & no & ea & ->)]; [exact Hn|].
    apply Forall_app. split; [exact Hn|]. now repeat constructor.
  - (* Settle *)
    destruct (inflight s !! i) as [p|] eqn:Hi; [|exact H].
    destruct (settle_session p o (set_inflight (delete i (inflight s)) s))
      as (H1 & H2 & H3 & H4).
    rewrite H1. cbn [showMap set_inflight].
    destruct (showMap s) eqn:Hs.
    + unfold tokenSaved. rewrite H2, H3, H4. exact H.
    + destruct H as (_ & _ & _ & Hin & _). rewrite Hin in Hi. discriminate.
  - (* Timeout *)
    destruct (onTimeout_session s) as (H1 & H2 & H3 & H4). rewrite H1.
    destruct (showMap s) eqn:Hs.
    + unfold tokenSaved. now rewrite H2, H3, H4.
    + unfold onTimeout. destruct H as (Hm & Hc & Hn & Hi & Ha & Hr & Hl & Hf & Ht & Hcl & Hd).
      rewrite Ht. now repeat split.
  - (* Render *)
    destruct (render_session c s) as (H1 & H2 & H3 & _ & _ & _ & _ & H8).
    rewrite H1. destruct (showMap s) eqn:Hs.
    + destruct H as (Hb & Hl & Hn). unfold tokenSaved. rewrite H2, H3.
      split; [exact Hb|]. split; [exact Hl|].
      destruct H8 as [->|[_ ->]]; [exact Hn|].
      apply Forall_app. split; [exact Hn|]. now repeat constructor.
    + now apply render_pristine.
  - (* Unmount *)
    destruct (unmount_session s) as (H1 & H2 & H3 & H4). rewrite H1.
    destruct (showMap s) eqn:Hs.
    + unfold tokenSaved. now rewrite H2, H3, H4.
    + unfold unmount. destruct (mounted s); [|exact H]. cbn [negb].
      destruct H as (Hm & Hc & Hn & Hi & Ha & Hr & Hl & Hf & Ht & Hcl & Hd).
      rewrite Hcl. now repeat split.
Qed.

Lemma reachable_sessionOk s : reachable s -> sessionOk s.
Proof.
  induction 1 as [stored|e s _ IH]; [|now apply step_sessionOk].
  unfold sessionOk; simpl. repeat split. intros d [=].
Qed.

(** X8: While the token form is on screen the component has built no map, sent
    no request and holds no reading, whatever was typed or clicked. *)
Theorem form_shown_nothing_started s :
  reachable s ->
  showMap s = false ->
  maps s = [] /\ map_current s = None /\ network s = []
  /\ inflight s = [] /\ aqiData s = JS.Arr [] /\ mapInitialized s = false.
Proof.
  intros Hr Hs. pose proof (reachable_sessionOk s Hr) as H.
  unfold sessionOk in H. rewrite Hs in H.
  destruct H as (Hm & Hc & Hn & Hi & Ha & _ & _ & Hf & _). now repeat split.
Qed.

(** X9: Once the map is shown, the token is not blank, it is the one kept in
    local storage, and every readings request sent so far was made with
    it. *)
Theorem map_shown_token_saved s :
  reachable s ->
  showMap s = true ->
  JS.blank (iqairToken s) = false
  /\ localStorage s = Some (iqairToken s)
  /\ Forall (carries (iqairToken s)) (network s).
Proof.
  intros Hr Hs. pose proof (reachable_sessionOk s Hr) as H.
  unfold sessionOk in H. now rewrite Hs in H.
Qed.

(** ** Saving the token and constructing the map *)

(** X10: Show Map with a blank token: the validation error is raised, the form
    stays, nothing is stored, and the render that follows builds no map and
    sends no request. *)
Theorem blank_token_rejected s c :
  reachable s ->
  mounted s = true ->
  showMap s = false ->
  JS.blank (iqairToken s) = true ->
  let s1 := step SaveToken s in
  let s2 := step (Render c) s1 in
  toasts s1 = (toasts s ++ [(ErrorToast, "Please enter a valid IQAir API token")])%list
  /\ showMap s2 = false
  /\ localStorage s2 = localStorage s
  /\ maps s2 = []
  /\ network s2 = [].
Proof.
  intros Hr Hmo Hs Hb s1 s2.
  assert (H1 : s1 = toast_error "Please enter a valid IQAir API token" s).
  { subst s1. simpl. rewrite Hmo, Hs. cbn [negb andb]. unfold handleSaveToken.
    now rewrite Hb. }
  assert (Hs2 : showMap s2 = false).
  { subst s2. simpl. destruct (render_session c s1) as (-> & _). now rewrite H1. }
  assert (Hr2 : reachable s2) by (subst s2 s1; now repeat constructor).
  pose proof (reachable_sessionOk s2 Hr2) as Hok. unfold sessionOk in Hok.
  rewrite Hs2 in Hok. destruct Hok as (Hm & _ & Hn & _).
  split; [now rewrite H1|]. split; [exact Hs2|]. split; [|now split].
  subst s2. simpl. destruct (render_session c s1) as (_ & _ & -> & _).
  now rewrite H1.
Qed.

(** What the render after a successful Show Map starts from. *)
Lemma saved_state s :
  reachable s ->
  mounted s = true ->
  showMap s = false ->
  JS.blank (iqairToken s) = false ->
  step SaveToken s = set_showMap true (set_localStorage (Some (iqairToken s)) s)
  /\ pristine s.
Proof.
  intros Hr Hmo Hs Hb. split.
  - simpl. rewrite Hmo, Hs. cbn [negb andb]. unfold handleSaveToken. now rewrite Hb.
  - pose proof (reachable_sessionOk s Hr) as H. unfold sessionOk in H.
    now rewrite Hs in H.
Qed.

(** The render after Show Map: the first effect runs for the first time
    with [showMap] set, and the second effect finds no reading to draw. *)
Lemma render_after_save c s :
  mounted s = true ->
  showMap s = true ->
  mapInitialized s = false ->
  initEffectCleanup s = false ->
  aqiData s = JS.Arr [] ->
  (forall d, initEffectDeps s = Some d -> fst (fst d) = false) ->
  let s1 := set_initEffectCleanup true
              (set_initEffectDeps (Some (true, iqairToken s, false))
                 (fst (initEffect c (true, iqairToken s, false) s))) in
  (render c s = s1 \/ render c s = set_aqiEffectDeps (Some (aqiVersion s)) s1)
  /\ aqiEffectDeps (render c s) = Some (aqiVersion s).
Proof.
  intros Hmo Hs Hf Hcl Ha Hd. cbv zeta.
  unfold render. cbv zeta. rewrite Hmo. cbn [negb].
  destruct (decide (initEffectDeps s = _)) as [e|_];
    [apply Hd in e; cbn in e; congruence|].
  rewrite Hcl, Hs, Hf.
  destruct (initEffect c (true, iqairToken s, false) s) as [u b] eqn:He.
  assert (Hb : b = true)
    by (unfold initEffect in He; cbn [negb orb] in He; now injection He).
  subst b. cbn [fst]. cbv beta iota.
  match goal with |- context [reconcileEffect ?x] => set (s1 := x) end.
  assert (Hre : reconcileEffect s1 = s1).
  { apply reconcileEffect_empty. subst s1.
    cbn [aqiData set_initEffectCleanup set_initEffectDeps].
    destruct (initEffect_session _ _ _ _ _ He) as (_ & _ & _ & _ & -> & _).
    exact Ha. }
  rewrite Hre. destruct (decide (aqiEffectDeps s1 = _)) as [e|_].
  - split; [now left|exact e].
  - split; [now right|reflexivity].
Qed.

(** A render that finds the dependencies of both effects unchanged does
    nothing. *)
Lemma render_stable c s :
  initEffectDeps s = Some (showMap s, iqairToken s, mapInitialized s) ->
  aqiEffectDeps s = Some (aqiVersion s) ->
  render c s = s.
Proof.
  intros H1 H2. unfold render. cbv zeta. destruct (mounted s); [|reflexivity].
  cbn [negb].
  destruct (decide (initEffectDeps s = _)); [|contradiction].
  destruct (decide (aqiEffectDeps s = _)); [reflexivity|contradiction].
Qed.

Ltac project :=
  cbn [maps map_current aqiData aqiVersion iqairToken showMap searchResults
       selectedLocation mapInitialized toasts network inflight timers
       localStorage mounted initEffectDeps initEffectCleanup aqiEffectDeps
       set_maps set_map_current setAqiData set_iqairToken set_showMap
       set_searchResults set_selectedLocation set_mapInitialized set_toasts
       set_network set_inflight set_timers set_localStorage set_mounted
       set_initEffectDeps set_initEffectCleanup set_aqiEffectDeps
       toast_error toast_warning axios_get update_map fst snd negb orb andb].

(** X11: Show Map with a token that is not blank, then the render: the token
    is stored, one map is built at the default view with the tile layer and
    the zoom control, the handle points to it, and one request for the
    default bounds is sent with that token. *)
Theorem unlock_constructs_map s :
  reachable s ->
  mounted s = true ->
  showMap s = false ->
  JS.blank (iqairToken s) = false ->
  let s' := run [SaveToken; Render Constructed] s in
  showMap s' = true
  /\ localStorage s' = Some (iqairToken s)
  /\ maps s' = [Leaflet.addZoomControl "topright"
                  (Leaflet.map defaultCenter defaultZoom [osmTiles])]
  /\ map_current s' = Some 0
  /\ mapInitialized s' = true
  /\ network s' = [usaBounds (iqairToken s)]
  /\ inflight s' = [AwaitInitialAQI]
  /\ toasts s' = toasts s.
Proof.
  intros Hr Hmo Hs Hb s'. subst s'.
  destruct (saved_state s Hr Hmo Hs Hb) as (Hsave & Hp).
  destruct Hp as (Hm & Hc & Hn & Hi & Ha & Hsr & Hl & Hf & Ht & Hcl & Hd).
  unfold run. cbn [fold_left]. rewrite Hsave.
  set (t := set_showMap true (set_localStorage (Some (iqairToken s)) s)).
  change (step (Render Constructed) t) with (render Constructed t).
  destruct (render_after_save Constructed t Hmo eq_refl Hf Hcl Ha Hd) as [[->| ->] _];
    unfold initEffect; subst t; project; rewrite Hm, Hn, Hi;
    repeat split.
Qed.

(** X12: When [L.map] throws, the error is reported and nothing is kept: no map
    object, no handle, no request.  The effect is not run again by later
    renders, so the construction is never retried. *)
Theorem failed_construction_not_retried s :
  reachable s ->
  mounted s = true ->
  showMap s = false ->
  JS.blank (iqairToken s) = false ->
  let s' := run [SaveToken; Render MapThrows] s in
  showMap s' = true
  /\ maps s' = []
  /\ map_current s' = None
  /\ mapInitialized s' = false
  /\ network s' = []
  /\ toasts s' = (toasts s ++ [(ErrorToast, "Failed to initialize map")])%list
  /\ forall c, step (Render c) s' = s'.
Proof.
  intros Hr Hmo Hs Hb s'. subst s'.
  destruct (saved_state s Hr Hmo Hs Hb) as (Hsave & Hp).
  destruct Hp as (Hm & Hc & Hn & Hi & Ha & Hsr & Hl & Hf & Ht & Hcl & Hd).
  unfold run. cbn [fold_left]. rewrite Hsave.
  set (t := set_showMap true (set_localStorage (Some (iqairToken s)) s)).
  change (step (Render MapThrows) t) with (render MapThrows t).
  destruct (render_after_save MapThrows t Hmo eq_refl Hf Hcl Ha Hd) as [Hren Hv].
  cbv zeta in Hren. unfold initEffect in Hren. cbn [negb orb fst] in Hren.
  destruct Hren as [Hren|Hren]; rewrite Hren in Hv |- *; subst t; project;
    rewrite ?Hm, ?Hn, ?Hc, ?Hf;
    (repeat (split; [reflexivity|]); intros c;
     apply render_stable; project; [now rewrite Hf|exact Hv]).
Qed.

(** X15: The handle and the map objects agree in every state the component
    reaches: a map object is alive exactly when [map.current] points to
    it. *)
Theorem handle_points_to_live_map s j :
  reachable s -> (live s j <-> map_current s = Some j).
Proof.
  intros Hr.
  destruct (reachable_ok getAQIColor parseFloat numberToString s Hr) as [[Hc Hu] _].
  split; [apply Hu|apply Hc].
Qed.

(** ** After unmounting *)

Lemma settle_maps p o s :
  maps (settle p o s) = maps s
  /\ map_current (settle p o s) = map_current s
  /\ mounted (settle p o s) = mounted s.
Proof.
  destruct p; simpl.
  - unfold handleSearch_settled. destruct o as [|[]]; now repeat split.
  - unfold fetchAQIData_settled, fetch_settled. destruct o as [|data]; [now repeat split|].
    destruct (JS.truthy data && JS.truthy (JS.get data "data")); now repeat split.
  - unfold fetchAQIDataForLocation_settled, fetch_settled.
    destruct o as [|data]; [now repeat split|].
    destruct (JS.truthy data && JS.truthy (JS.get data "data")); now repeat split.
Qed.

Lemma unmounted_step e s :
  mounted s = false -> map_current s = None ->
  mounted (step e s) = false
  /\ map_current (step e s) = None
  /\ maps (step e s) = maps s.
Proof.
  intros Hmo Hc. destruct e; simpl; rewrite ?Hmo; cbn [andb negb];
    try (now repeat split).
  - destruct (inflight s !! i); [|now repeat split].
    destruct (settle_maps p o (set_inflight (delete i (inflight s)) s))
      as (-> & -> & ->). now repeat split.
  - unfold onTimeout. destruct (timers s); [now repeat split|].
    cbn [map_current set_timers]. rewrite Hc. now repeat split.
  - unfold render. rewrite Hmo. now repeat split.
  - unfold unmount. rewrite Hmo. now repeat split.
Qed.

Lemma unmounted_run es : forall s,
  mounted s = false -> map_current s = None ->
  mounted (run es s) = false
  /\ map_current (run es s) = None
  /\ maps (run es s) = maps s.
Proof.
  induction es as [|e es IH]; intros s Hmo Hc; [now repeat split|].
  destruct (unmounted_step e s Hmo Hc) as (H1 & H2 & H3).
  destruct (IH (step e s) H1 H2) as (H4 & H5 & H6).
  unfold run in *. cbn [fold_left]. rewrite H4, H5, H6. now repeat split.
Qed.

(** X14: Unmounting is final: afterwards the handle is null, no map object is
    alive, and whatever happens later (answers to requests still in
    flight, the timer, clicks) leaves every map object as it is. *)
Theorem unmount_is_final s es :
  reachable s ->
  mounted s = true ->
  let s0 := step Unmount s in
  let s' := run es s0 in
  mounted s' = false
  /\ map_current s' = None
  /\ maps s' = maps s0
  /\ forall j, ~ live s' j.
Proof.
  intros Hr Hmo s0 s'.
  assert (Hr0 : reachable s0) by (subst s0; now constructor).
  destruct (reachable_ok getAQIColor parseFloat numberToString s0 Hr0) as [Hok0 _].
  destruct (reachable_ok getAQIColor parseFloat numberToString s Hr) as [Hok Hcl].
  assert (H0 : mounted s0 = false /\ map_current s0 = None).
  { subst s0. simpl. unfold unmount. rewrite Hmo. cbn [negb].
    split; [reflexivity|]. cbn [map_current set_mounted set_initEffectCleanup].
    now destruct (pending_cleanup_ok s Hok Hcl) as (_ & Hn & _). }
  destruct H0 as [Hmo0 Hc0].
  destruct (unmounted_run es s0 Hmo0 Hc0) as (H1 & H2 & H3).
  subst s'. split; [exact H1|]. split; [exact H2|]. split; [exact H3|].
  intros j (m & Hj & Hrm). rewrite H3 in Hj.
  apply (no_handle_no_live s0 j Hok0 Hc0). now exists m.
Qed.

(** ** The candidate list *)




(** ** The layers of the maps *)

(** The loop over the readings appends reading markers and nothing else,
    also when it is abandoned. *)
Lemma addReadings_shape points : forall m,
  exists drawn,
    addReadings points m
    = Leaflet.withLayers (Leaflet.layers m ++ List.map readingMarker drawn) m.
Proof.
  induction points as [|point rest IH]; intros m; simpl.
  - exists []. simpl. rewrite app_nil_r. now destruct m.
  - destruct (validReading point); [|apply IH].
    destruct (validLatLng (readingLatLng point)).
    + destruct (IH (Leaflet.addTo (readingMarker point) m)) as (drawn & ->).
      exists (point :: drawn). unfold Leaflet.addTo, Leaflet.withLayers; simpl.
      now rewrite <- app_assoc.
    + exists []. simpl. rewrite app_nil_r. now destruct m.
Qed.

Lemma readingMarkers_not_tiles points :
  List.filter isTileLayer (List.map readingMarker points) = [].
Proof. induction points as [|p ps IH]; [reflexivity|exact IH]. Qed.

Lemma tiles_kept_without_circles ls :
  List.filter isTileLayer
    (List.filter (fun l => negb (Leaflet.isCircleMarker l)) ls)
  = List.filter isTileLayer ls.
Proof.
  induction ls as [|l ls IH]; [reflexivity|].
  destruct l; simpl; now rewrite IH.
Qed.

Lemma tiles_kept_without_markers ls :
  List.filter isTileLayer
    (List.filter (fun l => negb (Leaflet.isMarker l)) ls)
  = List.filter isTileLayer ls.
Proof.
  induction ls as [|l ls IH]; [reflexivity|].
  destruct l; simpl; now rewrite IH.
Qed.

Lemma no_marker_left ls :
  List.filter Leaflet.isMarker
    (List.filter (fun l => negb (Leaflet.isMarker l)) ls) = [].
Proof.
  induction ls as [|l ls IH]; [reflexivity|].
  destruct l; simpl; exact IH.
Qed.

Lemma layersOk_draw points m :
  layersOk m ->
  layersOk (addReadings points
              (Leaflet.removeLayersWhere Leaflet.isCircleMarker m)).
Proof.
  intros [Hmk Htl].
  destruct (addReadings_shape points
              (Leaflet.removeLayersWhere Leaflet.isCircleMarker m)) as (drawn & ->).
  unfold layersOk, markers, Leaflet.removeLayersWhere, Leaflet.withLayers;
    cbn [Leaflet.layers Leaflet.removed].
  rewrite !List.filter_app, readingMarkers_not_plain, readingMarkers_not_tiles,
    plain_markers_kept, tiles_kept_without_circles, !app_nil_r.
  split; assumption.
Qed.

Lemma layersOk_select c z marker m :
  Leaflet.isMarker marker = true ->
  layersOk m ->
  layersOk (Leaflet.addTo marker
              (Leaflet.removeLayersWhere Leaflet.isMarker
                 (Leaflet.setView c z m))).
Proof.
  intros Hmarker [Hmk Htl].
  unfold layersOk, markers, Leaflet.addTo, Leaflet.removeLayersWhere,
    Leaflet.setView, Leaflet.withLayers; cbn [Leaflet.layers Leaflet.removed].
  rewrite !List.filter_app, no_marker_left, tiles_kept_without_markers.
  cbn [List.filter]. rewrite Hmarker.
  destruct marker; try discriminate. cbn [isTileLayer app length].
  rewrite app_nil_r. split; [lia|assumption].
Qed.

Lemma layersOk_fresh :
  layersOk (Leaflet.map defaultCenter defaultZoom [osmTiles]).
Proof. split; [simpl; lia|reflexivity]. Qed.

Lemma update_map_layersOk i f s :
  (forall m, layersOk m -> layersOk (f m)) ->
  Forall layersOk (maps s) -> Forall layersOk (maps (update_map i f s)).
Proof. intros Hf H. apply Forall_alter; [exact H|]. intros m _. apply Hf. Qed.

Lemma reconcileEffect_layersOk s :
  Forall layersOk (maps s) -> Forall layersOk (maps (reconcileEffect s)).
Proof.
  intros H. unfold reconcileEffect.
  destruct (map_current s) as [i|]; [|exact H].
  destruct (aqiData s) as [| | | | |[|point rest]|]; try exact H.
  apply update_map_layersOk; [|exact H]. intros m. apply layersOk_draw.
Qed.

Lemma initCleanup_layersOk s :
  Forall layersOk (maps s) -> Forall layersOk (maps (initCleanup s)).
Proof.
  intros H. unfold initCleanup. destruct (map_current s) as [i|]; [|exact H].
  cbn [maps set_mapInitialized set_map_current].
  apply update_map_layersOk; [|exact H].
  intros m _. split; [simpl; lia|discriminate].
Qed.

Lemma initEffect_layersOk c d s s' b :
  initEffect c d s = (s', b) ->
  Forall layersOk (maps s) -> Forall layersOk (maps s').
Proof.
  destruct d as [[sm tok] mi]. unfold initEffect.
  destruct (negb sm || negb sm || mi); [now intros [= <- <-]|].
  destruct c; intros [= <- <-] H; project.
  - apply Forall_alter; [|intros m _ Hm; exact Hm].
    apply Forall_app. split; [exact H|]. repeat constructor; apply layersOk_fresh.
  - exact H.
  - apply Forall_app. split; [exact H|]. repeat constructor; apply layersOk_fresh.
Qed.

Lemma render_layersOk c s :
  Forall layersOk (maps s) -> Forall layersOk (maps (render c s)).
Proof.
  intros H. unfold render. cbv zeta.
  destruct (mounted s); cbn [negb]; [|exact H].
  assert (Hrec : forall s1 v,
             Forall layersOk (maps s1) ->
             Forall layersOk
               (maps (if decide (aqiEffectDeps s1 = Some v) then s1
                      else set_aqiEffectDeps (Some v) (reconcileEffect s1)))).
  { intros s1 v H1. destruct (decide (aqiEffectDeps s1 = Some v)); [exact H1|].
    now apply reconcileEffect_layersOk. }
  destruct (decide (initEffectDeps s = _)); [now apply Hrec|].
  destruct (initEffect c (showMap s, iqairToken s, mapInitialized s)
              (if initEffectCleanup s then initCleanup s else s))
    as [s'' b] eqn:He.
  cbv beta iota.
  match goal with |- context [reconcileEffect ?x] => set (s1 := x) end.
  apply Hrec. subst s1. project.
  apply (initEffect_layersOk _ _ _ _ _ He).
  destruct (initEffectCleanup s); [now apply initCleanup_layersOk|exact H].
Qed.

Lemma step_layersOk e s :
  Forall layersOk (maps s) -> Forall layersOk (maps (step e s)).
Proof.
  intros H. destruct e; simpl.
  - now destruct (mounted s && negb (showMap s)).
  - destruct (mounted s && negb (showMap s)); [|exact H].
    unfold handleSaveToken. now destruct (JS.blank (iqairToken s)).
  - destruct (mounted s && showMap s); [|exact H].
    unfold handleSearch. now destruct (negb (JS.truthy (JS.Str query))).
  - destruct (mounted s && showMap s); [|exact H].
    unfold handleSelectLocation.
    destruct location; try exact H;
      cbn [map_current set_selectedLocation];
      (destruct (map_current s); [destruct (validLatLng _)|]);
      try exact H; project;
      (apply Forall_alter; [exact H|]; intros m _;
       now apply layersOk_select).
  - destruct (inflight s !! i) as [p|]; [|exact H].
    now destruct (settle_maps p o (set_inflight (delete i (inflight s)) s)) as (-> & _).
  - unfold onTimeout. destruct (timers s); [exact H|].
    cbn [map_current set_timers]. destruct (map_current s); [|exact H].
    apply update_map_layersOk; [|exact H]. now intros m Hm.
  - now apply render_layersOk.
  - unfold unmount. destruct (mounted s); [|exact H]. cbn [negb]. project.
    destruct (initEffectCleanup s); [now apply initCleanup_layersOk|exact H].
Qed.

Lemma reachable_layersOk s : reachable s -> Forall layersOk (maps s).
Proof.
  induction 1 as [stored|e s _ IH]; [constructor|now apply step_layersOk].
Qed.

(** X19: No map ever carries more than one plain marker: the marker of the
    selected place replaces the previous one. *)
Theorem at_most_one_selected_marker s j m :
  reachable s ->
  maps s !! j = Some m ->
  length (markers m) <= 1.
Proof.
  intros Hr Hj.
  now destruct (Forall_lookup_1 _ _ _ _ (reachable_layersOk s Hr) Hj).
Qed.

(** X20: The tile layer a map is built with is never removed and no other is
    added: a map that is not destroyed has that tile layer and no other,
    whatever is selected or drawn. *)
Theorem base_layer_is_kept s j m :
  reachable s ->
  maps s !! j = Some m ->
  Leaflet.removed m = false ->
  List.filter isTileLayer (Leaflet.layers m) = [osmTiles].
Proof.
  intros Hr Hj Hrm.
  destruct (Forall_lookup_1 _ _ _ _ (reachable_layersOk s Hr) Hj) as [_ H].
  now apply H.
Qed.

(** ** The construction cycle *)

Lemma reconcileEffect_length s :
  exists ms, reconcileEffect s = set_maps ms s /\ length ms = length (maps s).
Proof.
  unfold reconcileEffect.
  destruct (map_current s) as [i|].
  - destruct (aqiData s) as [| | | | |[|point rest]|];
      try (exists (maps s); split; [now destruct s|reflexivity]).
    eexists. split; [reflexivity|]. apply length_alter.
  - exists (maps s). split; [now destruct s|reflexivity].
Qed.

(** A render in which the first effect runs. *)
Lemma render_changed c s u b :
  mounted s = true ->
  initEffectDeps s <> Some (showMap s, iqairToken s, mapInitialized s) ->
  initEffect c (showMap s, iqairToken s, mapInitialized s)
    (if initEffectCleanup s then initCleanup s else s) = (u, b) ->
  exists ms v,
    render c s
    = set_aqiEffectDeps v
        (set_maps ms
           (set_initEffectCleanup b
              (set_initEffectDeps
                 (Some (showMap s, iqairToken s, mapInitialized s)) u)))
    /\ length ms = length (maps u).
Proof.
  intros Hmo Hd He. unfold render. cbv zeta. rewrite Hmo. cbn [negb].
  destruct (decide (initEffectDeps s = _)); [contradiction|].
  rewrite He. cbv beta iota.
  match goal with |- context [reconcileEffect ?x] => set (s1 := x) end.
  destruct (decide (aqiEffectDeps s1 = _)).
  - exists (maps u), (aqiEffectDeps u). split; [|reflexivity].
    subst s1. now destruct u.
  - destruct (reconcileEffect_length s1) as (ms & -> & Hl).
    exists ms, (Some (aqiVersion s)). split; [now destruct u|exact Hl].
Qed.

(** The render that follows a construction: the cleanup runs and the
    effect returns at its guard. *)
Lemma teardown_render c s i :
  mounted s = true -> showMap s = true -> mapInitialized s = true ->
  initEffectCleanup s = true -> map_current s = Some i ->
  initEffectDeps s = Some (true, iqairToken s, false) ->
  let s1 := render c s in
  mounted s1 = true /\ showMap s1 = true /\ mapInitialized s1 = false
  /\ initEffectCleanup s1 = false /\ map_current s1 = None
  /\ iqairToken s1 = iqairToken s /\ network s1 = network s
  /\ length (maps s1) = length (maps s)
  /\ initEffectDeps s1 = Some (true, iqairToken s, true).
Proof.
  intros Hmo Hs Hf Hcl Hi Hd. cbv zeta.
  destruct (render_changed c s
              (set_mapInitialized false
                 (set_map_current None (update_map i Leaflet.remove s))) false Hmo)
    as (ms & v & -> & Hl).
  { rewrite Hd, Hs, Hf. congruence. }
  { rewrite Hcl, Hs, Hf. unfold initCleanup. rewrite Hi.
    unfold initEffect. reflexivity. }
  project. rewrite Hs, Hf, Hl. unfold update_map. project.
  rewrite length_alter. repeat split; assumption.
Qed.

(** The render after the teardown: there is nothing to clean up and the
    map is constructed again. *)
Lemma rebuild_render s :
  mounted s = true -> showMap s = true -> mapInitialized s = false ->
  initEffectCleanup s = false ->
  initEffectDeps s = Some (true, iqairToken s, true) ->
  let s2 := render Constructed s in
  mounted s2 = true /\ showMap s2 = true /\ mapInitialized s2 = true
  /\ initEffectCleanup s2 = true
  /\ map_current s2 = Some (length (maps s))
  /\ iqairToken s2 = iqairToken s
  /\ network s2 = (network s ++ [usaBounds (iqairToken s)])%list
  /\ length (maps s2) = S (length (maps s))
  /\ initEffectDeps s2 = Some (true, iqairToken s, false).
Proof.
  intros Hmo Hs Hf Hcl Hd. cbv zeta.
  destruct (render_changed Constructed s
              (fst (initEffect Constructed (true, iqairToken s, false) s)) true Hmo)
    as (ms & v & -> & Hl).
  { rewrite Hd, Hs, Hf. congruence. }
  { rewrite Hcl, Hs, Hf. unfold initEffect. reflexivity. }
  revert Hl. unfold initEffect. cbn [negb orb fst]. project.
  rewrite length_alter, length_app. cbn [length]. intros ->.
  rewrite ?Hs, ?Hf. repeat split; try assumption; try reflexivity. lia.
Qed.

(** The second effect touches no map but the one the handle points to. *)
Lemma reconcileEffect_others s j :
  map_current s <> Some j ->
  maps (reconcileEffect s) !! j = maps s !! j.
Proof.
  intros Hj. unfold reconcileEffect.
  destruct (map_current s) as [i|]; [|reflexivity].
  destruct (aqiData s) as [| | | | |[|point rest]|]; try reflexivity.
  unfold update_map. cbn [maps set_maps].
  apply list_lookup_alter_ne. congruence.
Qed.

Lemma render_changed_others c s u b j :
  mounted s = true ->
  initEffectDeps s <> Some (showMap s, iqairToken s, mapInitialized s) ->
  initEffect c (showMap s, iqairToken s, mapInitialized s)
    (if initEffectCleanup s then initCleanup s else s) = (u, b) ->
  map_current u <> Some j ->
  maps (render c s) !! j = maps u !! j.
Proof.
  intros Hmo Hd He Hj. unfold render. cbv zeta. rewrite Hmo. cbn [negb].
  destruct (decide (initEffectDeps s = _)); [contradiction|].
  rewrite He. cbv beta iota.
  match goal with |- context [reconcileEffect ?x] => set (s1 := x) end.
  destruct (decide (aqiEffectDeps s1 = _)); [reflexivity|].
  cbn [maps set_aqiEffectDeps]. now rewrite reconcileEffect_others.
Qed.

(** The teardown render leaves the map it found destroyed. *)
Lemma teardown_render_destroys c s i m :
  mounted s = true -> showMap s = true -> mapInitialized s = true ->
  initEffectCleanup s = true -> map_current s = Some i ->
  initEffectDeps s = Some (true, iqairToken s, false) ->
  maps s !! i = Some m ->
  maps (render c s) !! i = Some (Leaflet.remove m).
Proof.
  intros Hmo Hs Hf Hcl Hi Hd Hm.
  rewrite (render_changed_others c s
             (set_mapInitialized false
                (set_map_current None (update_map i Leaflet.remove s))) false i Hmo).
  - unfold update_map. cbn [maps set_mapInitialized set_map_current set_maps].
    now rewrite list_lookup_alter_eq, Hm.
  - rewrite Hd, Hs, Hf. congruence.
  - rewrite Hcl, Hs, Hf. unfold initCleanup. rewrite Hi.
    unfold initEffect. reflexivity.
  - discriminate.
Qed.

(** The rebuild render leaves the maps it found as they are. *)
Lemma rebuild_render_keeps s j :
  mounted s = true -> showMap s = true -> mapInitialized s = false ->
  initEffectCleanup s = false ->
  initEffectDeps s = Some (true, iqairToken s, true) ->
  j < length (maps s) ->
  maps (render Constructed s) !! j = maps s !! j.
Proof.
  intros Hmo Hs Hf Hcl Hd Hj.
  rewrite (render_changed_others Constructed s
             (fst (initEffect Constructed (true, iqairToken s, false) s)) true j Hmo).
  - unfold initEffect. cbn [negb orb fst]. project.
    rewrite list_lookup_alter_ne by lia. now apply lookup_app_l.
  - rewrite Hd, Hs, Hf. congruence.
  - rewrite Hcl, Hs, Hf. unfold initEffect. reflexivity.
  - unfold initEffect. cbn [negb orb fst]. project. intros [= <-]. lia.
Qed.

(** X17: Every construction is undone and repeated: from the state in which a
    map has just been constructed, the next two renders destroy that map
    and construct another one, sending the request for the default bounds
    once more, and end in a state of the same kind. *)
Theorem construction_cycle s :
  justConstructed s ->
  let s2 := run [Render Constructed; Render Constructed] s in
  justConstructed s2
  /\ map_current s2 = Some (length (maps s))
  /\ length (maps s2) = S (length (maps s))
  /\ network s2 = (network s ++ [usaBounds (iqairToken s)])%list
  /\ (forall i m,
        map_current s = Some i ->
        maps s !! i = Some m ->
        maps s2 !! i = Some (Leaflet.remove m)
        /\ i <> length (maps s)).
Proof.
  intros (Hmo & Hs & Hf & Hcl & (i & Hi) & Hd) s2. subst s2.
  unfold run. cbn [fold_left].
  change (step (Render Constructed)) with (render Constructed).
  destruct (teardown_render Constructed s i Hmo Hs Hf Hcl Hi Hd)
    as (Hmo1 & Hs1 & Hf1 & Hcl1 & Hc1 & Ht1 & Hn1 & Hl1 & Hd1).
  rewrite <- Ht1 in Hd1.
  destruct (rebuild_render _ Hmo1 Hs1 Hf1 Hcl1 Hd1)
    as (Hmo2 & Hs2 & Hf2 & Hcl2 & Hc2 & Ht2 & Hn2 & Hl2 & Hd2).
  assert (Hold : forall k m,
             map_current s = Some k -> maps s !! k = Some m ->
             maps (render Constructed (render Constructed s)) !! k
             = Some (Leaflet.remove m) /\ k <> length (maps s)).
  { intros k m Hk Hm.
    assert (Hlt : k < length (maps s)) by (eapply lookup_lt_Some; exact Hm).
    split; [|lia].
    rewrite (rebuild_render_keeps _ k Hmo1 Hs1 Hf1 Hcl1 Hd1) by (rewrite Hl1; exact Hlt).
    exact (teardown_render_destroys Constructed s k m Hmo Hs Hf Hcl Hk Hd Hm). }
  unfold justConstructed.
  rewrite Hmo2, Hs2, Hf2, Hcl2, Hc2, Ht2, Hn2, Hl2, Hd2, Hl1, Hn1, Ht1.
  split; [repeat split; now eexists|].
  split; [reflexivity|]. split; [reflexivity|]. split; [reflexivity|].
  exact Hold.
Qed.

(** A render in which the first effect runs and the list of readings is
    the one already seen: the second effect is not run. *)
Lemma render_changed_seen c s u b :
  mounted s = true ->
  initEffectDeps s <> Some (showMap s, iqairToken s, mapInitialized s) ->
  initEffect c (showMap s, iqairToken s, mapInitialized s)
    (if initEffectCleanup s then initCleanup s else s) = (u, b) ->
  aqiEffectDeps u = Some (aqiVersion s) ->
  render c s
  = set_initEffectCleanup b
      (set_initEffectDeps (Some (showMap s, iqairToken s, mapInitialized s)) u).
Proof.
  intros Hmo Hd He Hv. unfold render. cbv zeta. rewrite Hmo. cbn [negb].
  destruct (decide (initEffectDeps s = _)); [contradiction|].
  rewrite He. cbv beta iota.
  destruct (decide (aqiEffectDeps _ = _)) as [|Hne]; [reflexivity|].
  now destruct Hne.
Qed.

(** X18: The map constructed by the cycle shows no reading: when the list of
    readings has not been replaced in between, the second effect is not run
    for the new map, so it carries the tile layer only, however many
    readings the list holds and the destroyed map showed. *)
Theorem rebuilt_map_shows_no_reading s :
  justConstructed s ->
  aqiEffectDeps s = Some (aqiVersion s) ->
  let s2 := run [Render Constructed; Render Constructed] s in
  aqiData s2 = aqiData s
  /\ map_current s2 = Some (length (maps s))
  /\ maps s2 !! length (maps s)
     = Some (Leaflet.addZoomControl "topright"
               (Leaflet.map defaultCenter defaultZoom [osmTiles])).
Proof.
  intros (Hmo & Hs & Hf & Hcl & (i & Hi) & Hd) Hv s2. subst s2.
  unfold run. cbn [fold_left].
  change (step (Render Constructed)) with (render Constructed).
  rewrite (render_changed_seen Constructed s
             (set_mapInitialized false
                (set_map_current None (update_map i Leaflet.remove s))) false Hmo).
  2: { rewrite Hd, Hs, Hf. congruence. }
  2: { rewrite Hcl, Hs, Hf. unfold initCleanup. rewrite Hi. reflexivity. }
  2: { exact Hv. }
  set (s1 := set_initEffectCleanup false _).
  assert (H1 : mounted s1 = true /\ showMap s1 = true /\ mapInitialized s1 = false
               /\ initEffectCleanup s1 = false
               /\ iqairToken s1 = iqairToken s
               /\ maps s1 = alter Leaflet.remove i (maps s)
               /\ aqiData s1 = aqiData s
               /\ aqiEffectDeps s1 = Some (aqiVersion s1)
               /\ initEffectDeps s1 = Some (true, iqairToken s, true)).
  { subst s1. project. rewrite Hs, Hf. now repeat split. }
  destruct H1 as (Hmo1 & Hs1 & Hf1 & Hcl1 & Ht1 & Hm1 & Ha1 & Hv1 & Hd1).
  clearbody s1.
  rewrite (render_changed_seen Constructed s1
             (fst (initEffect Constructed (true, iqairToken s, false) s1)) true Hmo1).
  2: { rewrite Hd1, Hs1, Hf1, Ht1. congruence. }
  2: { rewrite Hcl1, Hs1, Hf1, Ht1. reflexivity. }
  2: { unfold initEffect. cbn [negb orb fst]. project. exact Hv1. }
  unfold initEffect. cbn [negb orb fst]. project.
  rewrite Hm1, length_alter. split; [exact Ha1|]. split; [reflexivity|].
  rewrite list_lookup_alter_eq, list_lookup_middle by (now rewrite length_alter).
  reflexivity.
Qed.

End Coverage.

(** * The further properties on concrete runs *)

Lemma unlocked_reachable : reachable aqiColor parseDecimal showNumber unlocked.
Proof. apply reachable_run, reachable_init. Qed.

Lemma mounted0_reachable : reachable aqiColor parseDecimal showNumber mounted0.
Proof. apply reachable_run, reachable_init. Qed.

(** The readings [[station1; noIndex; station2]] on the first map: the
    last one is drawn after the first, the one without an index is not. *)
Lemma reading_drawn_iff_numeric_witness :
  numericReading station2
  /\ ~ numericReading noIndex
  /\ shownReadings (reconcileEffect aqiColor showNumber mixedBatch)
     = [readingMarker aqiColor showNumber station1;
        readingMarker aqiColor showNumber station2].
Proof.
  assert (Hp : numericReading station2)
    by (apply validReading_numeric; evaluate).
  split; [exact Hp|]. split.
  { intros H. apply validReading_numeric in H. vm_compute in H. discriminate. }
  refine (eq_trans (proj1
    (reading_drawn_iff_numeric aqiColor showNumber mixedBatch 0
       (Leaflet.addZoomControl "topright"
          (Leaflet.map defaultCenter defaultZoom [osmTiles]))
       [station1; noIndex] station2 [] _ _ _ _) Hp) _); evaluate.
Defined.

Lemma unknown_station_label_witness :
  JS.truthy (JS.get_opt (JS.get noStation "station") "name") = false
  /\ exists latlng options,
       readingMarker aqiColor showNumber noStation
       = Leaflet.CircleMarker latlng options (Some "<b>AQI: 7</b><br>Unknown Station").
Proof.
  split; [evaluate|]. eexists _, _.
  rewrite (unknown_station_label aqiColor showNumber noStation) by evaluate.
  f_equal.
Defined.

Lemma earlier_fetch_settling_last_wins_witness :
  inflight twoFetches = [AwaitInitialAQI; AwaitLocationAQI; AwaitLocationAQI]
  /\ aqiData
       (exec [Settle 2 (Resolved (JS.Obj [("data", JS.Arr [station2])]));
              Settle 1 (Resolved (JS.Obj [("data", JS.Arr [station1])]))]
          twoFetches)
     = JS.Arr [station1].
Proof.
  split; [evaluate|].
  unfold exec, run; cbn [fold_left].
  rewrite (earlier_fetch_settling_last_wins aqiColor parseDecimal showNumber
             twoFetches 1 2 AwaitLocationAQI AwaitLocationAQI);
    [evaluate|lia|evaluate|evaluate|reflexivity|reflexivity].
Defined.

Lemma nonarray_payload_kept_witness :
  inflight unlocked !! 0 = Some AwaitInitialAQI
  /\ aqiData
       (step aqiColor parseDecimal showNumber
          (Settle 0 (Resolved (JS.Obj [("status", JS.Str "error");
                                       ("data", JS.Str "Invalid key")])))
          unlocked)
     = JS.Str "Invalid key".
Proof.
  split; [evaluate|].
  refine (proj1 (nonarray_payload_kept aqiColor parseDecimal showNumber
                   unlocked 0 AwaitInitialAQI _ (JS.Str "Invalid key")
                   _ _ _ _ _ _));
    try evaluate. discriminate.
Defined.

Lemma unsliceable_search_response_witness :
  let s := exec [Search "Paris"] unlocked in
  inflight s !! 1 = Some AwaitSearch
  /\ unsliceable JS.Null = true
  /\ searchResults
       (step aqiColor parseDecimal showNumber (Settle 1 (Resolved JS.Null)) s)
     = searchResults s.
Proof.
  cbv zeta. split; [evaluate|]. split; [evaluate|].
  refine (proj1 (unsliceable_search_response aqiColor parseDecimal showNumber
                   _ 1 JS.Null _ _)); evaluate.
Defined.

Lemma form_shown_nothing_started_witness :
  let s := exec [ChangeToken "  "; SaveToken; Timeout; Search "Paris";
                 Render Constructed] mounted0 in
  showMap s = false /\ maps s = [] /\ network s = [].
Proof.
  cbv zeta. split; [evaluate|].
  match goal with |- maps ?s = _ /\ _ =>
    destruct (form_shown_nothing_started aqiColor parseDecimal showNumber s)
      as (Hm & _ & Hn & _)
  end.
  - apply reachable_run, mounted0_reachable.
  - evaluate.
  - split; assumption.
Defined.

Lemma map_shown_token_saved_witness :
  showMap unlocked = true
  /\ JS.blank (iqairToken unlocked) = false
  /\ localStorage unlocked = Some (iqairToken unlocked).
Proof.
  split; [evaluate|].
  destruct (map_shown_token_saved aqiColor parseDecimal showNumber unlocked
              unlocked_reachable) as (Hb & Hl & _); [evaluate|].
  split; assumption.
Defined.

(** The token typed is a space, a no-break space (U+00A0, the bytes 194
    and 160) and a tab. *)
Lemma blank_token_rejected_witness :
  let s := exec [ChangeToken (JS.of_bytes [32; 194; 160; 9])] mounted0 in
  mounted s = true /\ showMap s = false /\ JS.blank (iqairToken s) = true
  /\ maps (exec [SaveToken; Render Constructed] s) = [].
Proof.
  cbv zeta. split; [evaluate|]. split; [evaluate|]. split; [evaluate|].
  refine (proj1 (proj2 (proj2 (proj2
    (blank_token_rejected aqiColor parseDecimal showNumber _ Constructed _ _ _ _)))));
    try evaluate.
  apply reachable_run, mounted0_reachable.
Defined.

Lemma unlock_constructs_map_witness :
  mounted mounted0 = true /\ showMap mounted0 = false
  /\ JS.blank (iqairToken mounted0) = false
  /\ map_current (exec [SaveToken; Render Constructed] mounted0) = Some 0.
Proof.
  split; [evaluate|]. split; [evaluate|]. split; [evaluate|].
  refine (proj1 (proj2 (proj2 (proj2
    (unlock_constructs_map aqiColor parseDecimal showNumber mounted0
       mounted0_reachable _ _ _))))); evaluate.
Defined.

Lemma failed_construction_not_retried_witness :
  mounted mounted0 = true /\ showMap mounted0 = false
  /\ JS.blank (iqairToken mounted0) = false
  /\ maps (exec [SaveToken; Render MapThrows] mounted0) = [].
Proof.
  split; [evaluate|]. split; [evaluate|]. split; [evaluate|].
  refine (proj1 (proj2
    (failed_construction_not_retried aqiColor parseDecimal showNumber mounted0
       mounted0_reachable _ _ _))); evaluate.
Defined.

Lemma unmount_is_final_witness :
  mounted unlocked = true
  /\ map_current
       (exec [Settle 0 (Resolved (JS.Obj [("data", JS.Arr [station1])]));
              Timeout; Render Constructed; Select paris]
          (step aqiColor parseDecimal showNumber Unmount unlocked))
     = None.
Proof.
  split; [evaluate|].
  refine (proj1 (proj2
    (unmount_is_final aqiColor parseDecimal showNumber unlocked _
       unlocked_reachable _))). evaluate.
Defined.


Lemma at_most_one_selected_marker_witness :
  exists m, maps staleRun !! 0 = Some m /\ length (markers m) <= 1.
Proof.
  eexists. split; [evaluate|].
  eapply (at_most_one_selected_marker aqiColor parseDecimal showNumber staleRun 0).
  - apply reachable_run, reachable_init.
  - evaluate.
Defined.

Lemma base_layer_is_kept_witness :
  exists m, maps staleRun !! 0 = Some m
            /\ Leaflet.removed m = false
            /\ List.filter isTileLayer (Leaflet.layers m) = [osmTiles].
Proof.
  eexists. split; [evaluate|]. split; [evaluate|].
  eapply (base_layer_is_kept aqiColor parseDecimal showNumber staleRun 0).
  - apply reachable_run, reachable_init.
  - evaluate.
  - evaluate.
Defined.

Lemma construction_cycle_witness :
  let s2 := exec [Render Constructed; Render Constructed] unlocked in
  justConstructed unlocked
  /\ map_current unlocked = Some 0
  /\ map_current s2 = Some 1
  /\ maps s2 !! 0
     = Some (Leaflet.remove
               (Leaflet.addZoomControl "topright"
                  (Leaflet.map defaultCenter defaultZoom [osmTiles]))).
Proof.
  cbv zeta.
  assert (H : justConstructed unlocked).
  { split; [evaluate|]. split; [evaluate|]. split; [evaluate|]. split; [evaluate|].
    split; [exists 0; evaluate|evaluate]. }
  destruct (construction_cycle aqiColor parseDecimal showNumber unlocked H)
    as (_ & Hc & _ & _ & Hold).
  split; [exact H|]. split; [evaluate|]. split; [exact Hc|].
  apply (Hold 0); evaluate.
Defined.

Lemma handle_points_to_live_map_witness :
  let s := exec [Render Constructed; Render Constructed] unlocked in
  map_current s = Some 1 /\ live s 1 /\ ~ live s 0.
Proof.
  cbv zeta.
  assert (Hr : reachable aqiColor parseDecimal showNumber
                 (exec [Render Constructed; Render Constructed] unlocked))
    by apply reachable_run, unlocked_reachable.
  assert (Hc : map_current (exec [Render Constructed; Render Constructed] unlocked)
               = Some 1) by evaluate.
  split; [exact Hc|]. split.
  - apply (handle_points_to_live_map aqiColor parseDecimal showNumber _ 1 Hr).
    exact Hc.
  - intros H0.
    apply (handle_points_to_live_map aqiColor parseDecimal showNumber _ 0 Hr) in H0.
    rewrite Hc in H0. discriminate.
Defined.

Lemma rerun_destroys_map_witness :
  mounted unlocked = true /\ map_current unlocked = Some 0
  /\ initEffectCleanup unlocked = true /\ mapInitialized unlocked = true
  /\ map_current (render aqiColor showNumber Constructed unlocked) = None.
Proof.
  split; [evaluate|]. split; [evaluate|]. split; [evaluate|]. split; [evaluate|].
  refine (proj1
    (rerun_destroys_map aqiColor showNumber Constructed unlocked 0
       (Leaflet.addZoomControl "topright"
          (Leaflet.map defaultCenter defaultZoom [osmTiles]))
       _ _ _ _ _ _)); try evaluate.
  vm_compute. discriminate.
Defined.

Lemma reconcileEffect_nonempty_witness :
  coordinatesOk [station1; noIndex; station2] = true
  /\ exists m',
       maps (reconcileEffect aqiColor showNumber mixedBatch) !! 0 = Some m'
       /\ List.filter Leaflet.isCircleMarker (Leaflet.layers m')
          = [readingMarker aqiColor showNumber station1;
             readingMarker aqiColor showNumber station2].
Proof.
  split; [evaluate|].
  destruct (reconcileEffect_nonempty aqiColor showNumber mixedBatch 0
              (Leaflet.addZoomControl "topright"
                 (Leaflet.map defaultCenter defaultZoom [osmTiles]))
              station1 [noIndex; station2]) as (m' & Hm' & Hc & _);
    try evaluate.
  exists m'. split; [exact Hm'|]. rewrite Hc. evaluate.
Defined.

Lemma rebuilt_map_shows_no_reading_witness :
  let s := reconcileEffect aqiColor showNumber
             (set_aqiEffectDeps (Some 1) (setAqiData (JS.Arr [station1]) unlocked)) in
  justConstructed s
  /\ aqiEffectDeps s = Some (aqiVersion s)
  /\ (exists m, maps s !! 0 = Some m
                /\ List.filter Leaflet.isCircleMarker (Leaflet.layers m)
                   = [readingMarker aqiColor showNumber station1])
  /\ aqiData (exec [Render Constructed; Render Constructed] s) = JS.Arr [station1]
  /\ (Leaflet.layers
        <$> maps (exec [Render Constructed; Render Constructed] s) !! 1)
     = Some [osmTiles].
Proof.
  cbv zeta.
  set (s := reconcileEffect aqiColor showNumber _).
  assert (H : justConstructed s).
  { split; [evaluate|]. split; [evaluate|]. split; [evaluate|]. split; [evaluate|].
    split; [exists 0; evaluate|evaluate]. }
  assert (Hv : aqiEffectDeps s = Some (aqiVersion s)) by evaluate.
  split; [exact H|]. split; [exact Hv|].
  split; [eexists; split; evaluate|].
  destruct (rebuilt_map_shows_no_reading aqiColor parseDecimal showNumber s H Hv)
    as (Ha & _ & Hm).
  split.
  - unfold exec. rewrite Ha. evaluate.
  - unfold exec. replace (length (maps s)) with 1 in Hm by evaluate.
    rewrite Hm. reflexivity.
Defined.
